(** * SqlAlchemyDataSet: the push-down expectation evaluators

    A shallow embedding of [great_expectations/dataset/sqlalchemy_dataset.py]:
    the two decorators [column_map_expectation] and
    [column_aggregate_expectation], the table-level expectations and the
    column expectations built with the decorators.

    Python values are a small inductive type, exceptions are values of
    [exn], and a call that talks to the engine is a computation over the
    list of queries executed so far, so that "before any backend call" is a
    statement about that list.  Ordering comparisons follow Python 3
    ([None] is not ordered against anything). *)

From Stdlib Require Import ZArith QArith Bool List String Ascii Lia.
From Stdlib Require Qcanon.
Import ListNotations.
Open Scope string_scope.
Open Scope Z_scope.
Set Warnings "-register-all".

(** ** Python values *)

Inductive pyval : Type :=
| PyNone
| PyBool (b : bool)
| PyInt (z : Z)
| PyFloat (q : Q)
| PyStr (s : string)
| PyList (l : list pyval)
| PyDict (d : list (string * pyval)).

Definition dict := list (string * pyval).

Inductive exn : Type :=
| ValueError (msg : string)
| TypeError (msg : string)
| KeyError (key : string)
| UnboundLocalError (var : string)
| OverflowError (msg : string)
| EngineError (msg : string).

Inductive result (A : Type) : Type :=
| Returned (a : A)
| Raised (e : exn).
Arguments Returned {A} a.
Arguments Raised {A} e.

(** [d[k]]: the first binding wins, [dict_set] keeps keys unique. *)
Fixpoint dict_get (k : string) (d : dict) : option pyval :=
  match d with
  | [] => None
  | (k', v) :: d' => if String.eqb k k' then Some v else dict_get k d'
  end.

Definition dict_has (k : string) (d : dict) : bool :=
  match dict_get k d with Some _ => true | None => false end.

(** [d[k] = v] *)
Fixpoint dict_set (k : string) (v : pyval) (d : dict) : dict :=
  match d with
  | [] => [(k, v)]
  | (k', v') :: d' =>
      if String.eqb k k' then (k, v) :: d' else (k', v') :: dict_set k v d'
  end.

Definition keys (d : dict) : list string := map fst d.

(** [bool(v)] *)
Definition py_bool (v : pyval) : bool :=
  match v with
  | PyNone => false
  | PyBool b => b
  | PyInt z => negb (z =? 0)
  | PyFloat q => negb (Qeq_bool q 0)
  | PyStr s => negb (String.eqb s "")
  | PyList l => match l with [] => false | _ => true end
  | PyDict d => match d with [] => false | _ => true end
  end.

Definition is_none (v : pyval) : bool :=
  match v with PyNone => true | _ => false end.

(** The number a numeric value denotes ([bool] is a subclass of [int]). *)
Definition num_of (v : pyval) : option Q :=
  match v with
  | PyBool b => Some (inject_Z (if b then 1 else 0))
  | PyInt z => Some (inject_Z z)
  | PyFloat q => Some q
  | _ => None
  end.

(** [a <= b] in Python 3: numbers by value, strings in lexicographic
    order, anything else is a [TypeError]. *)
Definition py_le (a b : pyval) : result bool :=
  match num_of a, num_of b with
  | Some x, Some y => Returned (Qle_bool x y)
  | _, _ =>
      match a, b with
      | PyStr s, PyStr t => Returned (String.leb s t)
      | _, _ => Raised (TypeError "ordering not supported between these instances")
      end
  end.

(** [a > b] *)
Definition py_gt (a b : pyval) : result bool :=
  match num_of a, num_of b with
  | Some x, Some y => Returned (negb (Qle_bool x y))
  | _, _ =>
      match a, b with
      | PyStr s, PyStr t => Returned (negb (String.leb s t))
      | _, _ => Raised (TypeError "ordering not supported between these instances")
      end
  end.

(** [n == v] for an [int] [n]: numeric equality against a number, [False]
    against a value of any other builtin type. *)
Definition py_int_eq (n : Z) (v : pyval) : bool :=
  match num_of v with
  | Some q => Qeq_bool (inject_Z n) q
  | None => false
  end.

Fixpoint is_prefix (p s : string) : bool :=
  match p, s with
  | EmptyString, _ => true
  | String a p', String b s' => Ascii.eqb a b && is_prefix p' s'
  | String _ _, EmptyString => false
  end.

Fixpoint is_substring (p s : string) : bool :=
  is_prefix p s ||
  match s with
  | EmptyString => false
  | String _ s' => is_substring p s'
  end.

Definition is_str (k : string) (v : pyval) : bool :=
  match v with PyStr s => String.eqb k s | _ => false end.

(** [k in v] for a string [k] *)
Definition py_contains (k : string) (v : pyval) : result bool :=
  match v with
  | PyDict d => Returned (dict_has k d)
  | PyList l => Returned (existsb (is_str k) l)
  | PyStr s => Returned (is_substring k s)
  | _ => Raised (TypeError "argument is not iterable")
  end.

(** [v[k]] for a string [k] *)
Definition py_getitem (v : pyval) (k : string) : result pyval :=
  match v with
  | PyDict d =>
      match dict_get k d with
      | Some x => Returned x
      | None => Raised (KeyError k)
      end
  | PyList _ | PyStr _ => Raised (TypeError "indices must be integers")
  | _ => Raised (TypeError "object is not subscriptable")
  end.

(** ** SQL expressions and queries *)

Inductive cmp_op : Type := OpGe | OpLe.

(** The boolean expressions the expectations hand to the engine.
    [sa_column(c) == None] is rendered [c IS NULL], [!= None] is
    [c IS NOT NULL]; an ordering against [None] stays [c >= NULL]. *)
Inductive sqlexpr : Type :=
| IsNull (c : string)
| IsNotNull (c : string)
| InTuple (c : string) (vs : list pyval)
| Compare (op : cmp_op) (c : string) (bound : pyval)
| not_ (e : sqlexpr)
| and_ (e1 e2 : sqlexpr).

Inductive aggfn : Type := sa_max | sa_min | sa_sum | sa_avg.

Inductive query : Type :=
| SelectCounts (tbl column : string) (unexpected_condition : sqlexpr)
| SelectWhere (tbl column : string) (cond : sqlexpr) (limit : option Z)
| SelectNullCounts (tbl column : string)
| SelectAggregate (fn : aggfn) (tbl column : string)
| SelectCount (tbl : string).

(** What [engine.execute(q)] gives back, by the shape of the query:
    [.fetchone()] of a counting query, [.fetchall()] of a one-column
    select, [.scalar()].  A [sum(...)] over no rows is SQL [NULL]. *)
Inductive result_proxy : Type :=
| CountsRow (element_count : Z) (null_count unexpected_count : option Z)
| NullCountsRow (element_count : Z) (null_count : option Z)
| Rows (values : list pyval)
| Scalar (v : pyval).

Inductive sqltype : Type :=
| Integer | BigInteger | SmallInteger | Float | Numeric | Boolean
| String_ | Text | DateTime.

Record column_info : Type := { name : string; type : sqltype }.

Record result_format_dict : Type := {
  result_obj_format : string;
  (* [None]: the key is absent; [Some None]: present with value [None] *)
  partial_unexpected_count : option (option Z)
}.

Inductive result_format_arg : Type :=
| RFString (s : string)
| RFDict (d : result_format_dict).

Record DataSet : Type := {
  table_name : string;
  engine : query -> result result_proxy;
  columns : list column_info;
  default_result_format : result_format_dict
}.

(** ** Computations that query the engine

    The state is the list of queries executed so far, oldest first; an
    exception keeps the queries that were executed before it. *)

Definition M (A : Type) : Type := list query -> result A * list query.

Definition ret {A} (a : A) : M A := fun log => (Returned a, log).

Definition raise {A} (e : exn) : M A := fun log => (Raised e, log).

Definition bind {A B} (m : M A) (k : A -> M B) : M B :=
  fun log =>
    match m log with
    | (Returned a, log') => k a log'
    | (Raised e, log') => (Raised e, log')
    end.

Definition lift {A} (r : result A) : M A := fun log => (r, log).

Notation "x <- m ;; k" := (bind m (fun x => k))
  (at level 61, m at next level, right associativity).

(** [self.engine.execute(q)] *)
Definition execute (self : DataSet) (q : query) : M result_proxy :=
  fun log => (engine self q, (log ++ [q])%list).

Definition shape_error {A} : M A :=
  raise (EngineError "result does not have the shape of the query").

(** [a - b] where [b] may be [None] *)
Definition int_sub (a : Z) (b : option Z) : result Z :=
  match b with
  | Some n => Returned (a - n)
  | None => Raised (TypeError "unsupported operand type(s) for -: 'int' and 'NoneType'")
  end.

Definition py_of_count (c : option Z) : pyval :=
  match c with Some n => PyInt n | None => PyNone end.

(** [a >= b] *)
Definition py_ge (a b : pyval) : result bool := py_le b a.

(** ** Helpers of the base class

    [great_expectations/dataset/base.py] is not part of the sources at
    hand; the two helpers the map decorator calls are written from the
    specification. *)

(** Modelled from the spec: [DataSet._calc_map_expectation_success] is
    missing from src/.  Section 4.2, step 6: with [mostly] absent, success
    iff no value is unexpected, that is [nonnull_count - success_count = 0];
    otherwise success iff [success_count / nonnull_count >= mostly]; over
    zero non-null values success is [True].  The second component is the
    ratio, [None] when there is nothing to divide by.  The ratio is a
    rational number. *)
Definition _calc_map_expectation_success
    (success_count nonnull_count : Z) (mostly : option Q) : bool * option Q :=
  if nonnull_count =? 0 then (true, None)
  else
    let percent_success := (inject_Z success_count / inject_Z nonnull_count)%Q in
    match mostly with
    | None => (nonnull_count - success_count =? 0, Some percent_success)
    | Some m => (Qle_bool m percent_success, Some percent_success)
    end.

Definition py_of_ratio (r : option Q) : pyval :=
  match r with Some q => PyFloat q | None => PyNone end.

Definition known_levels : list string :=
  ["BOOLEAN_ONLY"; "BASIC"; "SUMMARY"; "COMPLETE"].

Definition level_in (l : string) (ls : list string) : bool :=
  existsb (String.eqb l) ls.

(** Modelled from the spec: [DataSet._format_column_map_output] is missing
    from src/.  Section 4.1: at [BOOLEAN_ONLY] only [success]; at [BASIC]
    a [result_obj] with [element_count], [missing_count = element_count -
    nonnull_count], [missing_percent] ([None] over no elements),
    [unexpected_count], [unexpected_percent] ([None] over no non-null
    values) and the sample [partial_unexpected_list]; [SUMMARY] and
    [COMPLETE] as [BASIC]; any other level is an error.  The formatter is
    handed the sample and no count, so [unexpected_count] is the length of
    the sample. *)
Definition _format_column_map_output
    (rf : result_format_dict) (success : bool) (element_count nonnull_count : Z)
    (partial_unexpected_list : list pyval) (extra : pyval) : result dict :=
  let return_obj := [("success", PyBool success)] in
  if String.eqb (result_obj_format rf) "BOOLEAN_ONLY" then Returned return_obj
  else if level_in (result_obj_format rf) ["BASIC"; "SUMMARY"; "COMPLETE"] then
    let missing_count := element_count - nonnull_count in
    let unexpected_count := Z.of_nat (List.length partial_unexpected_list) in
    let missing_percent :=
      if element_count =? 0 then None
      else Some (inject_Z missing_count / inject_Z element_count)%Q in
    let unexpected_percent :=
      if nonnull_count =? 0 then None
      else Some (inject_Z unexpected_count / inject_Z nonnull_count)%Q in
    Returned
      (dict_set "result_obj"
         (PyDict [("element_count", PyInt element_count);
                  ("missing_count", PyInt missing_count);
                  ("missing_percent", py_of_ratio missing_percent);
                  ("unexpected_count", PyInt unexpected_count);
                  ("unexpected_percent", py_of_ratio unexpected_percent);
                  ("partial_unexpected_list", PyList partial_unexpected_list)])
         return_obj)
  else Raised (ValueError ("Unknown result_format " ++ result_obj_format rf ++ ".")).

(** ** The decorators and the expectations *)

Section Expectations.

(** [parse_result_format] lives in [great_expectations/dataset/util.py],
    which is not at hand: it turns the caller's argument into the
    dictionary the decorators read. *)
Variable parse_result_format : result_format_arg -> result result_format_dict.

(** Python's [float(s).is_integer()] for a string [s]; [None] where
    [float(s)] raises [ValueError]. *)
Variable str_float_is_integer : string -> option bool.

Definition resolve_result_format
    (self : DataSet) (result_format : option result_format_arg)
    : result result_format_dict :=
  match result_format with
  | None => Returned (default_result_format self)
  | Some a => parse_result_format a
  end.

Definition unexpected_count_limit (rf : result_format_dict) : option Z :=
  match partial_unexpected_count rf with
  | Some limit => limit
  | None =>
      if String.eqb (result_obj_format rf) "COMPLETE" then None else Some 20
  end.

(** [MetaSqlAlchemyDataSet.column_map_expectation]: [func] returns the
    condition that marks a row as unexpected. *)
Definition column_map_expectation
    (func : DataSet -> string -> result sqlexpr)
    (self : DataSet) (column : string) (mostly : option Q)
    (result_format : option result_format_arg) : M dict :=
  rf <- lift (resolve_result_format self result_format) ;;
  let limit := unexpected_count_limit rf in
  unexpected_condition <- lift (func self column) ;;
  count_results <-
    execute self (SelectCounts (table_name self) column unexpected_condition) ;;
  match count_results with
  | CountsRow element_count null_count unexpected_count =>
      unexpected_query_results <-
        execute self
          (SelectWhere (table_name self) column unexpected_condition limit) ;;
      match unexpected_query_results with
      | Rows partial_unexpected_list =>
          nonnull_count <- lift (int_sub element_count null_count) ;;
          success_count <- lift (int_sub nonnull_count unexpected_count) ;;
          let '(success, percent_success) :=
            _calc_map_expectation_success success_count nonnull_count mostly in
          lift (_format_column_map_output rf success element_count
                  nonnull_count partial_unexpected_list PyNone)
      | _ => shape_error
      end
  | _ => shape_error
  end.

Definition missing_info : exn :=
  ValueError
    "Column aggregate expectation failed to return required return information.".

(** [MetaSqlAlchemyDataSet.column_aggregate_expectation]: [func] computes
    the statistic and returns [success] and [result_obj]. *)
Definition column_aggregate_expectation
    (func : DataSet -> string -> M pyval)
    (self : DataSet) (column : string)
    (result_format : option result_format_arg) : M dict :=
  rf <- lift (resolve_result_format self result_format) ;;
  let limit := unexpected_count_limit rf in
  evaluation_result <- func self column ;;
  has_success <- lift (py_contains "success" evaluation_result) ;;
  if negb has_success then raise missing_info else
  has_result_obj <- lift (py_contains "result_obj" evaluation_result) ;;
  if negb has_result_obj then raise missing_info else
  result_obj <- lift (py_getitem evaluation_result "result_obj") ;;
  has_observed <- lift (py_contains "observed_value" result_obj) ;;
  if negb has_observed then raise missing_info else
  success <- lift (py_getitem evaluation_result "success") ;;
  let return_obj := [("success", PyBool (py_bool success))] in
  if String.eqb (result_obj_format rf) "BOOLEAN_ONLY" then ret return_obj else
  count_results <- execute self (SelectNullCounts (table_name self) column) ;;
  match count_results with
  | NullCountsRow element_count null_count =>
      observed_value <- lift (py_getitem result_obj "observed_value") ;;
      missing_percent <-
        lift (if element_count >? 0 then
                match null_count with
                | Some n =>
                    Returned (PyFloat (inject_Z n / inject_Z element_count))
                | None =>
                    Raised (TypeError
                      "unsupported operand type(s) for *: 'NoneType' and 'float'")
                end
              else Returned PyNone) ;;
      let out :=
        [("observed_value", observed_value);
         ("element_count", PyInt element_count);
         ("missing_count", py_of_count null_count);
         ("missing_percent", missing_percent)] in
      if String.eqb (result_obj_format rf) "BASIC"
      then ret (dict_set "result_obj" (PyDict out) return_obj) else
      has_details <- lift (py_contains "details" result_obj) ;;
      out' <- (if has_details
               then details <- lift (py_getitem result_obj "details") ;;
                    ret (dict_set "details" details out)
               else ret out) ;;
      if level_in (result_obj_format rf) ["SUMMARY"; "COMPLETE"]
      then ret (dict_set "result_obj" (PyDict out') return_obj) else
      raise (ValueError
               ("Unknown result_format " ++ result_obj_format rf ++ "."))
  | _ => shape_error
  end.

(** [isinstance(col['type'], (Integer, BigInteger, Float, Numeric,
    SmallInteger, Boolean))] *)
Definition is_numeric_type (t : sqltype) : bool :=
  match t with
  | Integer | BigInteger | Float | Numeric | SmallInteger | Boolean => true
  | _ => false
  end.

Definition _is_numeric_column (self : DataSet) (column : string) : bool :=
  existsb (fun col => String.eqb (name col) column && is_numeric_type (type col))
    (columns self).

(** *** Table-level expectations *)

(** The least integer [float()] rejects with [OverflowError]:
    [2^1024 - 2^970] rounds to infinity. *)
Definition float_overflow : Z := 2 ^ 1024 - 2 ^ 970.

(** [float(v).is_integer()] *)
Definition py_float_is_integer (v : pyval) : result bool :=
  match v with
  | PyBool _ => Returned true
  | PyInt z =>
      if Z.abs z <? float_overflow then Returned true
      else Raised (OverflowError "int too large to convert to float")
  | PyFloat q => Returned (Z.pos (Qden (Qred q)) =? 1)
  | PyStr s =>
      match str_float_is_integer s with
      | Some b => Returned b
      | None => Raised (ValueError "could not convert string to float")
      end
  | _ => Raised (TypeError "float() argument must be a string or a number")
  end.

(** [if v is not None: float(v).is_integer()]: the value is computed and
    dropped. *)
Definition check_integer (v : pyval) : result unit :=
  if is_none v then Returned tt
  else match py_float_is_integer v with
       | Returned _ => Returned tt
       | Raised e => Raised e
       end.

(** [try: body except ValueError: raise ValueError(msg)] *)
Definition reraise_value_error {A} (body : result A) (msg : string) : result A :=
  match body with
  | Raised (ValueError _) => Raised (ValueError msg)
  | r => r
  end.

(** [result_format] is taken and never read by the table-level
    expectations. *)
Definition expect_table_row_count_to_equal
    (self : DataSet) (value : pyval)
    (result_format : option result_format_arg) : M dict :=
  _ <- lift (reraise_value_error (check_integer value) "value must an integer") ;;
  if is_none value then raise (ValueError "value must be provided") else
  r <- execute self (SelectCount (table_name self)) ;;
  match r with
  | Scalar (PyInt row_count) =>
      ret [("success", PyBool (py_int_eq row_count value));
           ("result_obj", PyDict [("observed_value", PyInt row_count)])]
  | _ => shape_error
  end.

(** The chain [if min != None and max != None: ... elif ... elif ...]
    that every expectation with two bounds repeats: no branch binds the
    outcome when both bounds are [None].  [row_count >= min_value] is
    [min_value <= row_count]. *)
Definition between_outcome
    (var : string) (min_value max_value observed : pyval) : result bool :=
  match is_none min_value, is_none max_value with
  | false, false =>
      match py_le min_value observed with
      | Returned true => py_le observed max_value
      | r => r
      end
  | true, false => py_le observed max_value
  | false, true => py_le min_value observed
  | true, true => Raised (UnboundLocalError var)
  end.

Definition expect_table_row_count_to_be_between
    (self : DataSet) (min_value max_value : pyval)
    (result_format : option result_format_arg) : M dict :=
  _ <- lift (reraise_value_error
               (match check_integer min_value with
                | Returned _ => check_integer max_value
                | r => r
                end)
               "min_value and max_value must be integers") ;;
  r <- execute self (SelectCount (table_name self)) ;;
  match r with
  | Scalar (PyInt row_count) =>
      outcome <- lift (between_outcome "outcome" min_value max_value
                         (PyInt row_count)) ;;
      ret [("success", PyBool outcome);
           ("result_obj", PyDict [("observed_value", PyInt row_count)])]
  | _ => shape_error
  end.

Fixpoint index_of (x : string) (l : list string) : option Z :=
  match l with
  | [] => None
  | y :: l' =>
      if String.eqb x y then Some 0
      else match index_of x l' with Some i => Some (i + 1) | None => None end
  end.

Definition expect_column_to_exist
    (self : DataSet) (column : string) (column_index : pyval)
    (result_format : option result_format_arg) : M dict :=
  let col_names := map name (columns self) in
  let success :=
    if is_none column_index then existsb (String.eqb column) col_names
    else match index_of column col_names with
         | Some col_index => py_int_eq col_index column_index
         | None => false
         end in
  ret [("success", PyBool success)].

(** *** Column map expectations: the unexpected condition *)

Definition expect_column_values_to_be_null
    (self : DataSet) (column : string) : result sqlexpr :=
  Returned (IsNotNull column).

Definition expect_column_values_to_not_be_null
    (self : DataSet) (column : string) : result sqlexpr :=
  Returned (IsNull column).

Definition expect_column_values_to_be_in_set
    (values_set : list pyval) (self : DataSet) (column : string)
    : result sqlexpr :=
  Returned (not_ (InTuple column values_set)).

Definition expect_column_values_to_be_between
    (min_value max_value allow_cross_type_comparisons
       parse_strings_as_datetimes : pyval)
    (self : DataSet) (column : string) : result sqlexpr :=
  if negb (is_none parse_strings_as_datetimes) then
    Raised (ValueError
      "parse_strings_as_datetimes is not currently supported in SqlAlchemy.")
  else
    match py_gt min_value max_value with
    | Raised e => Raised e
    | Returned true =>
        Raised (ValueError "min_value cannot be greater than max_value")
    | Returned false =>
        if is_none min_value && is_none max_value then
          Raised (ValueError "min_value and max_value cannot both be None")
        else
          Returned (not_ (and_ (Compare OpGe column min_value)
                               (Compare OpLe column max_value)))
    end.

(** *** Column aggregate expectations: the statistic *)

Definition both_none : exn :=
  ValueError "min_value and max_value cannot both be None".

Definition statistic_between
    (fn : aggfn) (min_value max_value : pyval)
    (self : DataSet) (column : string) : M pyval :=
  r <- execute self (SelectAggregate fn (table_name self) column) ;;
  match r with
  | Scalar observed =>
      success <- lift (between_outcome "success" min_value max_value observed) ;;
      ret (PyDict [("success", PyBool success);
                   ("result_obj", PyDict [("observed_value", observed)])])
  | _ => shape_error
  end.

Definition expect_column_max_to_be_between
    (min_value max_value parse_strings_as_datetimes output_strftime_format
       : pyval)
    (self : DataSet) (column : string) : M pyval :=
  if is_none min_value && is_none max_value then raise both_none else
  if py_bool parse_strings_as_datetimes then
    raise (ValueError "parse_strings_as_datetimes is not supported in SqlAlchemy")
  else statistic_between sa_max min_value max_value self column.

Definition expect_column_min_to_be_between
    (min_value max_value parse_strings_as_datetimes output_strftime_format
       : pyval)
    (self : DataSet) (column : string) : M pyval :=
  if is_none min_value && is_none max_value then raise both_none else
  if py_bool parse_strings_as_datetimes then
    raise (ValueError "parse_strings_as_datetimes is not supported in SqlAlchemy")
  else statistic_between sa_min min_value max_value self column.

Definition expect_column_sum_to_be_between
    (min_value max_value : pyval)
    (self : DataSet) (column : string) : M pyval :=
  if is_none min_value && is_none max_value then raise both_none else
  statistic_between sa_sum min_value max_value self column.

Definition expect_column_mean_to_be_between
    (min_value max_value : pyval)
    (self : DataSet) (column : string) : M pyval :=
  if is_none min_value && is_none max_value then raise both_none else
  if negb (_is_numeric_column self column) then
    raise (ValueError "column is not numeric")
  else statistic_between sa_avg min_value max_value self column.

End Expectations.

(** ** A reference engine

    One table of integer columns held in memory, answering the five query
    shapes with SQL's semantics: three-valued logic in conditions, [CASE]
    and [WHERE] selecting the rows whose condition is true, aggregates
    skipping [NULL] and giving [NULL] over no rows.  Two points differ
    between engines and releases and follow SQLite here: nothing is in an
    empty tuple, a null value included ([c IN ()] is false; the rendering
    [c != c] of SQLAlchemy before 1.2 is unknown on null), and a negative
    [LIMIT] is no limit (PostgreSQL rejects it). *)

Definition row := list (string * option Z).

Record Table : Type := {
  tbl_name : string;
  tbl_columns : list column_info;
  tbl_rows : list row
}.

Fixpoint cell (r : row) (c : string) : option Z :=
  match r with
  | [] => None
  | (c', v) :: r' => if String.eqb c c' then v else cell r' c
  end.

Definition not3 (a : option bool) : option bool := option_map negb a.

Definition and3 (a b : option bool) : option bool :=
  match a, b with
  | Some false, _ | _, Some false => Some false
  | Some true, Some true => Some true
  | _, _ => None
  end.

Definition in3 (v : Z) (vs : list pyval) : option bool :=
  if existsb (py_int_eq v) vs then Some true
  else if existsb is_none vs then None
  else Some false.

Definition compare3 (op : cmp_op) (v : Z) (bound : Q) : bool :=
  match op with
  | OpGe => Qle_bool bound (inject_Z v)
  | OpLe => Qle_bool (inject_Z v) bound
  end.

Fixpoint eval3 (r : row) (e : sqlexpr) : option bool :=
  match e with
  | IsNull c => Some (match cell r c with None => true | Some _ => false end)
  | IsNotNull c => Some (match cell r c with None => false | Some _ => true end)
  | InTuple c vs =>
      match vs, cell r c with
      | [], _ => Some false
      | _ :: _, None => None
      | _ :: _, Some v => in3 v vs
      end
  | Compare op c bound =>
      match cell r c, num_of bound with
      | Some v, Some b => Some (compare3 op v b)
      | _, _ => None
      end
  | not_ e1 => not3 (eval3 r e1)
  | and_ e1 e2 => and3 (eval3 r e1) (eval3 r e2)
  end.

(** The rows a [WHERE e] keeps and a [CASE WHEN e THEN 1 ELSE 0] counts. *)
Definition holds (e : sqlexpr) (r : row) : bool :=
  match eval3 r e with Some true => true | _ => false end.

Definition is_null (c : string) (r : row) : bool :=
  match cell r c with None => true | Some _ => false end.

Fixpoint expr_columns (e : sqlexpr) : list string :=
  match e with
  | IsNull c | IsNotNull c | InTuple c _ | Compare _ c _ => [c]
  | not_ e1 => expr_columns e1
  | and_ e1 e2 => expr_columns e1 ++ expr_columns e2
  end%list.

(** Bound parameters are [None] or numbers. *)
Fixpoint params_ok (e : sqlexpr) : bool :=
  match e with
  | IsNull _ | IsNotNull _ => true
  | InTuple _ vs =>
      forallb (fun v => is_none v || match num_of v with Some _ => true | None => false end) vs
  | Compare _ _ bound =>
      is_none bound || match num_of bound with Some _ => true | None => false end
  | not_ e1 => params_ok e1
  | and_ e1 e2 => params_ok e1 && params_ok e2
  end.

Definition has_column (t : Table) (c : string) : bool :=
  existsb (fun col => String.eqb (name col) c) (tbl_columns t).

Definition count_rows (f : row -> bool) (rs : list row) : Z :=
  Z.of_nat (List.length (filter f rs)).

(** [sum(case when ... then 1 else 0 end)] *)
Definition sum_case (f : row -> bool) (rs : list row) : option Z :=
  match rs with
  | [] => None
  | _ => Some (count_rows f rs)
  end.

Fixpoint nonnull_values (c : string) (rs : list row) : list Z :=
  match rs with
  | [] => []
  | r :: rs' =>
      match cell r c with
      | Some v => v :: nonnull_values c rs'
      | None => nonnull_values c rs'
      end
  end.

Definition aggregate (fn : aggfn) (vs : list Z) : pyval :=
  match vs with
  | [] => PyNone
  | v :: vs' =>
      match fn with
      | sa_max => PyInt (fold_left Z.max vs' v)
      | sa_min => PyInt (fold_left Z.min vs' v)
      | sa_sum => PyInt (fold_left Z.add vs' v)
      | sa_avg =>
          PyFloat (inject_Z (fold_left Z.add vs' v)
                     / inject_Z (Z.of_nat (List.length vs)))
      end
  end.

Definition py_of_cell (v : option Z) : pyval :=
  match v with Some z => PyInt z | None => PyNone end.

Definition no_such_table (tbl : string) : exn :=
  EngineError ("no such table: " ++ tbl).

Definition no_such_column (c : string) : exn :=
  EngineError ("no such column: " ++ c).

Definition checked (t : Table) (tbl : string) (cols : list string)
    (ok : bool) (answer : result result_proxy) : result result_proxy :=
  if negb (String.eqb tbl (tbl_name t)) then Raised (no_such_table tbl)
  else match find (fun c => negb (has_column t c)) cols with
       | Some c => Raised (no_such_column c)
       | None =>
           if ok then answer
           else Raised (EngineError "unsupported bound parameter")
       end.

Definition table_engine (t : Table) (q : query) : result result_proxy :=
  let rs := tbl_rows t in
  match q with
  | SelectCounts tbl column cond =>
      checked t tbl (column :: expr_columns cond) (params_ok cond)
        (Returned (CountsRow (Z.of_nat (List.length rs))
                     (sum_case (is_null column) rs)
                     (sum_case (holds cond) rs)))
  | SelectWhere tbl column cond limit =>
      checked t tbl (column :: expr_columns cond) (params_ok cond)
        (let found :=
           map (fun r => py_of_cell (cell r column)) (filter (holds cond) rs) in
         match limit with
         | None => Returned (Rows found)
         | Some n =>
             Returned (Rows (if n <? 0 then found
                             else firstn (Z.to_nat n) found))
         end)
  | SelectNullCounts tbl column =>
      checked t tbl [column] true
        (Returned (NullCountsRow (Z.of_nat (List.length rs))
                     (sum_case (is_null column) rs)))
  | SelectAggregate fn tbl column =>
      checked t tbl [column] true
        (Returned (Scalar (aggregate fn (nonnull_values column rs))))
  | SelectCount tbl =>
      checked t tbl [] true (Returned (Scalar (PyInt (Z.of_nat (List.length rs)))))
  end.

(** [SqlAlchemyDataSet(engine, table_name)]: the columns are read once from
    the engine's inspector. *)
Definition SqlAlchemyDataSet (t : Table) (default : result_format_dict) : DataSet :=
  {| table_name := tbl_name t;
     engine := table_engine t;
     columns := tbl_columns t;
     default_result_format := default |}.

(** ** Concrete data for the examples *)

(** Modelled from the spec: [parse_result_format] is missing from src/.
    Section 6: the argument is a level name or a structured configuration;
    a level name stands for the configuration with that level and no
    [partial_unexpected_count]. *)
Definition parse_result_format (a : result_format_arg) : result result_format_dict :=
  match a with
  | RFString s =>
      Returned {| result_obj_format := s; partial_unexpected_count := None |}
  | RFDict d => Returned d
  end.

Definition is_digit (a : ascii) : bool :=
  let n := nat_of_ascii a in (48 <=? n)%nat && (n <=? 57)%nat.

Fixpoint all_digits (s : string) : bool :=
  match s with
  | EmptyString => true
  | String a s' => is_digit a && all_digits s'
  end.

(** A string of decimal digits is an integral float; the examples use no
    other string that [float] accepts. *)
Definition digits_float_is_integer (s : string) : option bool :=
  match s with
  | EmptyString => None
  | _ => if all_digits s then Some true else None
  end.

Definition level (s : string) : result_format_dict :=
  {| result_obj_format := s; partial_unexpected_count := None |}.

Definition int_row (c : string) (v : option Z) : row := [(c, v)].

(** The table of the specification's scenario: ten rows, column [x]. *)
Definition scenario : Table :=
  {| tbl_name := "t";
     tbl_columns := [ {| name := "x"; type := Integer |} ];
     tbl_rows :=
       map (int_row "x")
         [Some 1; Some 2; Some 3; None; Some 5;
          Some 6; Some 7; Some 8; Some 9; Some 10] |}.

Definition all_null : Table :=
  {| tbl_name := "t";
     tbl_columns := [ {| name := "x"; type := Integer |} ];
     tbl_rows := map (int_row "x") [None; None] |}.

Definition run {A} (m : M A) : result A * list query := m [].

(** A statistic that reports success as the integer [1]. *)
Definition truthy_statistic (self : DataSet) (column : string) : M pyval :=
  ret (PyDict [("success", PyInt 1);
               ("result_obj", PyDict [("observed_value", PyInt 3)])]).

(** ** Reading an outcome *)

(** The fields of [out['result_obj']], none when the key is absent. *)
Definition result_obj_keys (out : dict) : list string :=
  match dict_get "result_obj" out with
  | Some (PyDict ro) => keys ro
  | _ => []
  end.

(** The rank of a verbosity level. *)
Definition rank (l : string) : option nat :=
  if String.eqb l "BOOLEAN_ONLY" then Some 0%nat
  else if String.eqb l "BASIC" then Some 1%nat
  else if String.eqb l "SUMMARY" then Some 2%nat
  else if String.eqb l "COMPLETE" then Some 3%nat
  else None.

Definition ratio (success_count nonnull_count : Z) : Q :=
  inject_Z success_count / inject_Z nonnull_count.

Definition unknown_result_format (l : string) : exn :=
  ValueError ("Unknown result_format " ++ l ++ ".").

(** What the outcome [out] of a map expectation says about success, given
    the three counts the engine reported. *)
Definition success_decision
    (mostly : option Q) (element_count null_count unexpected_count : Z)
    (out : dict) : Prop :=
  let nonnull_count := element_count - null_count in
  let success_count := nonnull_count - unexpected_count in
  exists success : bool,
    dict_get "success" out = Some (PyBool success) /\
    success = fst (_calc_map_expectation_success success_count nonnull_count mostly) /\
    (nonnull_count = 0 -> success = true) /\
    (0 < nonnull_count -> mostly = None ->
       (success = true <-> unexpected_count = 0)) /\
    (forall m, 0 < nonnull_count -> mostly = Some m ->
       (success = true <-> (m <= ratio success_count nonnull_count)%Q)) /\
    (forall m, 0 < nonnull_count -> mostly = Some m ->
       (m == ratio success_count nonnull_count)%Q -> success = true).

Definition base_fields (observed_value : pyval) (element_count : Z)
    (null_count : option Z) (missing_percent : pyval) : dict :=
  [("observed_value", observed_value);
   ("element_count", PyInt element_count);
   ("missing_count", py_of_count null_count);
   ("missing_percent", missing_percent)].

Definition map_fields : list string :=
  ["element_count"; "missing_count"; "missing_percent"; "unexpected_count";
   "unexpected_percent"; "partial_unexpected_list"].

Definition base_keys : list string :=
  ["observed_value"; "element_count"; "missing_count"; "missing_percent"].

Definition top_keys (r : nat) : list string :=
  match r with
  | O => ["success"]
  | _ => ["success"; "result_obj"]
  end.

(** The fields of an aggregate outcome's [result_obj] at rank [r], for a
    statistic whose [result_obj] is [ro]. *)
Definition aggregate_keys (r : nat) (ro : pyval) : list string :=
  match r with
  | O => []
  | S O => base_keys
  | _ =>
      match py_contains "details" ro with
      | Returned true => base_keys ++ ["details"]
      | _ => base_keys
      end
  end%list.

Definition map_keys (r : nat) : list string :=
  match r with
  | O => []
  | _ => map_fields
  end.

(** The keys of [out1], returned at rank [r1], against those of [out2],
    returned at a rank at least as high. *)
Definition keys_grow (r1 : nat) (out1 out2 : dict) : Prop :=
  incl (keys out1) (keys out2) /\
  incl (result_obj_keys out1) (result_obj_keys out2) /\
  (r1 = 0%nat -> keys out1 = ["success"] /\ dict_get "result_obj" out1 = None).

(** A condition that is never true on a row whose [column] is null. *)
Definition skips_nulls (column : string) (cond : sqlexpr) : Prop :=
  forall r, holds cond r = true -> is_null column r = false.

(** The bound on the sample, as the decorator resolves it. *)
Definition resolved_bound (rf : result_format_dict) : option Z :=
  match partial_unexpected_count rf with
  | Some given => given
  | None => if String.eqb (result_obj_format rf) "COMPLETE" then None else Some 20
  end.

(** The length of a sample of [unexpected_count] values under a bound. *)
Definition bounded (unexpected_count : Z) (bound : option Z) : Z :=
  match bound with
  | Some n => Z.min unexpected_count n
  | None => unexpected_count
  end.


(** ** Bounds and rows, for the statements about the expectations *)

(** A bound as the caller passes it: [None] or an integer. *)
Definition bound (b : option Z) : pyval :=
  match b with Some z => PyInt z | None => PyNone end.

(** [min <= v <= max], an absent bound holding of every [v]. *)
Definition within (min_value max_value : option Z) (v : Z) : bool :=
  match min_value with Some a => a <=? v | None => true end
  && match max_value with Some b => v <=? b | None => true end.

Definition row_count (t : Table) : Z := Z.of_nat (List.length (tbl_rows t)).

(** ** [great_expectations/util.py]: [DotDict]

    A [dict] whose attributes are its items: [__getattr__] is [dict.get],
    [__setattr__] is [dict.__setitem__], [__delattr__] is
    [dict.__delitem__] and [__dir__] lists the keys. *)

Module DotDict.

Definition __getattr__ (self : dict) (attr : string) : pyval :=
  match dict_get attr self with
  | Some v => v
  | None => PyNone
  end.

Definition __setattr__ (self : dict) (attr : string) (v : pyval) : dict :=
  dict_set attr v self.

Definition remove (attr : string) (self : dict) : dict :=
  filter (fun kv => negb (String.eqb attr (fst kv))) self.

Definition __delattr__ (self : dict) (attr : string) : result dict :=
  if dict_has attr self then Returned (remove attr self)
  else Raised (KeyError attr).

Definition __dir__ (self : dict) : list string := keys self.

(** What reading [d.attr] gives.  Python looks the name up on the class
    first and calls [__getattr__] only when that fails: a name the class
    has (the methods of [dict] and those above) is never read from the
    items.  [on_class] tells the names the class has.  Writing and
    deleting always go through [__setattr__] and [__delattr__]. *)
Inductive attribute : Type :=
| ClassAttribute (name : string)
| Item (v : pyval).

Definition getattr (on_class : string -> bool) (self : dict) (attr : string)
    : attribute :=
  if on_class attr then ClassAttribute attr
  else Item (__getattr__ self attr).

End DotDict.

(** Names a [dict] has, for the examples. *)
Definition dict_methods : list string :=
  ["clear"; "copy"; "fromkeys"; "get"; "items"; "keys"; "pop"; "popitem";
   "setdefault"; "update"; "values"].

Definition example_on_class (attr : string) : bool :=
  is_prefix "__" attr || existsb (String.eqb attr) dict_methods.

(** ** [great_expectations/util.py]: [validate]

    The classes are those of the caller's objects; the dataset classes,
    [pd.DataFrame] and the data context live outside this module and are
    taken as given. *)

Section Validate.

Variable class : Type.

(** [issubclass(c, d)]; [isinstance(x, d)] is [issubclass(type(x), d)]. *)
Variable issubclass : class -> class -> bool.

(** [dataset.Dataset], [pd.DataFrame] and [dataset.PandasDataset]. *)
Variables Dataset DataFrame PandasDataset : class.

Variable context : Type.

(** [data_context.get_expectations(data_asset_name)] *)
Variable get_expectations : context -> option string -> result dict.

(** What [validate] hands over to: the asset's own [validate], or
    [_convert_to_dataset_class] to a class followed by [validate]. *)
Inductive validation : Type :=
| ValidateAsIs (expectations_config : dict)
| ConvertThenValidate (data_asset_type : class) (expectations_config : dict).

(** The branch taken when a configuration is given: it only logs, and the
    message reads [expectations_config["data_asset_name"]]. *)
Definition log_config_name
    (expectations_config : dict) (data_asset_name : option string) : result unit :=
  if match data_asset_name with
     | Some n => dict_has n expectations_config
     | None => false
     end
  then match dict_get "data_asset_name" expectations_config with
       | Some _ => Returned tt
       | None => Raised (KeyError "data_asset_name")
       end
  else Returned tt.

Definition validate
    (data_asset : class) (expectations_config : option dict)
    (data_asset_name : option string) (data_context : option context)
    (data_asset_type : option class) : result validation :=
  let isinstance := issubclass data_asset in
  match
    match expectations_config, data_context with
    | None, None =>
        Raised (ValueError
          "Either an expectations config or a DataContext is required for validation.")
    | None, Some ctx => get_expectations ctx data_asset_name
    | Some cfg, _ =>
        match log_config_name cfg data_asset_name with
        | Returned _ => Returned cfg
        | Raised e => Raised e
        end
    end
  with
  | Raised e => Raised e
  | Returned cfg =>
      if isinstance Dataset
         && match data_asset_type with None => true | Some _ => false end
      then Returned (ValidateAsIs cfg)
      else
        let data_asset_type :=
          match data_asset_type with
          | None => if isinstance DataFrame then Some PandasDataset else None
          | Some c => Some c
          end in
        if negb (isinstance Dataset || isinstance DataFrame) then
          Raised (ValueError
            "The validate util method only supports dataset validations, including custom subclasses. For other data asset types, use the object's own validate method.")
        else
          match data_asset_type with
          | None => Raised (TypeError "issubclass() arg 2 must be a class")
          | Some target =>
              if negb (issubclass data_asset target) then
                if isinstance DataFrame && issubclass target PandasDataset
                then Returned (ConvertThenValidate target cfg)
                else Raised (ValueError
                  "The validate util method only supports validation for subtypes of the provided data_asset_type.")
              else Returned (ConvertThenValidate target cfg)
          end
  end.

End Validate.

(** ** [great_expectations/datasource/pandas_source.py]:
    [PandasDatasource.build_batch_kwargs] *)

Module PandasDatasource.

(** A value of the keyword arguments: a frame ([pd.DataFrame] or
    [pd.Series]), known by a name, or a plain Python value. *)
Inductive value : Type :=
| Frame (id : nat)
| Plain (v : pyval).

Definition kwargs := list (string * value).

Fixpoint get (k : string) (d : kwargs) : option value :=
  match d with
  | [] => None
  | (k', v) :: d' => if String.eqb k k' then Some v else get k d'
  end.

(** [d.update({k: v})] *)
Fixpoint update (k : string) (v : value) (d : kwargs) : kwargs :=
  match d with
  | [] => [(k, v)]
  | (k', v') :: d' =>
      if String.eqb k k' then (k, v) :: d' else (k', v') :: update k v d'
  end.

(** [now] is what [time.time()] returns. *)
Definition build_batch_kwargs
    (now : Q) (data_asset_name : string) (args : list value) (kw : kwargs)
    : kwargs :=
  match args with
  | Frame id :: _ =>
      update "timestamp" (Plain (PyFloat now)) (update "df" (Frame id) kw)
  | Plain (PyStr path) :: _ =>
      update "timestamp" (Plain (PyFloat now)) (update "path" (Plain (PyStr path)) kw)
  | _ :: _ => kw
  | [] => update "timestamp" (Plain (PyFloat now)) kw
  end.

End PandasDatasource.

(** A class table for the examples: [PandasDataset] derives from both
    [Dataset] and [DataFrame]. *)
Inductive example_class : Type :=
| CDataset | CDataFrame | CPandasDataset | CSqlAlchemyDataset | CString.

Definition example_issubclass (c d : example_class) : bool :=
  match c, d with
  | CDataset, CDataset | CDataFrame, CDataFrame
  | CPandasDataset, (CPandasDataset | CDataset | CDataFrame)
  | CSqlAlchemyDataset, (CSqlAlchemyDataset | CDataset)
  | CString, CString => true
  | _, _ => false
  end.

Definition no_context (ctx : unit) (data_asset_name : option string) : result dict :=
  Returned [].

(** ** Proof support *)

Ltac unfold_run H :=
  unfold column_map_expectation, column_aggregate_expectation,
    statistic_between, bind, lift, execute, ret, raise, shape_error in H.

(** Splits a hypothesis about a run along the matches of the computation,
    dropping the branches that end in an exception the hypothesis excludes. *)
Ltac split_run H :=
  repeat match type of H with
         | context [match ?x with _ => _ end] =>
             let E := fresh "E" in
             destruct x eqn:E; try discriminate H
         end.


Lemma level_in_two (l a b : string) :
  level_in l [a; b] = true -> l = a \/ l = b.
Proof.
  unfold level_in. simpl. intro H.
  apply orb_true_iff in H as [H|H]; [left; apply String.eqb_eq; exact H|].
  apply orb_true_iff in H as [H|H]; [right; apply String.eqb_eq; exact H|].
  discriminate.
Qed.

Lemma calc_no_values (success_count : Z) (mostly : option Q) :
  fst (_calc_map_expectation_success success_count 0 mostly) = true.
Proof. reflexivity. Qed.

Lemma calc_strict (success_count nonnull_count : Z) :
  0 < nonnull_count ->
  fst (_calc_map_expectation_success success_count nonnull_count None) = true
  <-> nonnull_count - success_count = 0.
Proof.
  intro Hpos. unfold _calc_map_expectation_success.
  destruct (nonnull_count =? 0) eqn:E; [apply Z.eqb_eq in E; lia|].
  simpl. apply Z.eqb_eq.
Qed.

Lemma calc_mostly (success_count nonnull_count : Z) (m : Q) :
  0 < nonnull_count ->
  fst (_calc_map_expectation_success success_count nonnull_count (Some m)) = true
  <-> (m <= ratio success_count nonnull_count)%Q.
Proof.
  intro Hpos. unfold _calc_map_expectation_success.
  destruct (nonnull_count =? 0) eqn:E; [apply Z.eqb_eq in E; lia|].
  simpl. apply Qle_bool_iff.
Qed.

Lemma format_success (rf : result_format_dict) (success : bool)
    (element_count nonnull_count : Z) (l : list pyval) (extra : pyval) (out : dict) :
  _format_column_map_output rf success element_count nonnull_count l extra
    = Returned out ->
  dict_get "success" out = Some (PyBool success).
Proof.
  unfold _format_column_map_output. intro H. split_run H;
    injection H as <-; reflexivity.
Qed.

(** ** The aggregate decorator, case by case *)

(** Every way [column_aggregate_expectation] returns an outcome. *)
Lemma aggregate_returns
    (P : result_format_arg -> result result_format_dict)
    (func : DataSet -> string -> M pyval)
    (self : DataSet) (column : string)
    (result_format : option result_format_arg)
    (log log' : list query) (out : dict) :
  column_aggregate_expectation P func self column result_format log
    = (Returned out, log') ->
  exists rf evaluation_result log1 ro s,
    resolve_result_format P self result_format = Returned rf /\
    func self column log = (Returned evaluation_result, log1) /\
    py_getitem evaluation_result "result_obj" = Returned ro /\
    py_getitem evaluation_result "success" = Returned s /\
    let success := ("success", PyBool (py_bool s)) in
    ((result_obj_format rf = "BOOLEAN_ONLY" /\ out = [success] /\ log' = log1)
     \/
     exists element_count null_count observed_value missing_percent,
       let base := base_fields observed_value element_count null_count missing_percent in
       engine self (SelectNullCounts (table_name self) column)
         = Returned (NullCountsRow element_count null_count) /\
       log' = (log1 ++ [SelectNullCounts (table_name self) column])%list /\
       ((result_obj_format rf = "BASIC" /\ out = [success; ("result_obj", PyDict base)])
        \/
        ((result_obj_format rf = "SUMMARY" \/ result_obj_format rf = "COMPLETE") /\
         ((py_contains "details" ro = Returned false /\
           out = [success; ("result_obj", PyDict base)])
          \/ exists details,
               py_contains "details" ro = Returned true /\
               out = [success;
                      ("result_obj", PyDict (base ++ [("details", details)])%list)])))).
Proof.
  intro H. unfold_run H.
  destruct (resolve_result_format P self result_format) as [rf|] eqn:Erf;
    [|discriminate].
  destruct (func self column log) as [[er|] log1] eqn:Ef; [|discriminate].
  destruct (py_contains "success" er) as [[|]|] eqn:E1; try discriminate.
  cbn [negb] in H.
  destruct (py_contains "result_obj" er) as [[|]|] eqn:E2; try discriminate.
  cbn [negb] in H.
  destruct (py_getitem er "result_obj") as [ro|] eqn:E3; [|discriminate].
  destruct (py_contains "observed_value" ro) as [[|]|] eqn:E4; try discriminate.
  cbn [negb] in H.
  destruct (py_getitem er "success") as [s|] eqn:E5; [|discriminate].
  exists rf, er, log1, ro, s.
  repeat (split; [solve [reflexivity | assumption]|]). cbv zeta.
  destruct (String.eqb (result_obj_format rf) "BOOLEAN_ONLY") eqn:Eb.
  { left. apply String.eqb_eq in Eb. injection H as <- <-. auto. }
  right.
  destruct (engine self (SelectNullCounts (table_name self) column))
    as [[| ec nc | |]|] eqn:Eq; try discriminate.
  destruct (py_getitem ro "observed_value") as [ov|] eqn:E6; [|discriminate].
  match type of H with
  | context [match (if ?c then _ else _) with _ => _ end] =>
      destruct (if c then _ else _) as [mp|] eqn:Emp; [|discriminate]
  end.
  exists ec, nc, ov, mp. split; [reflexivity|].
  destruct (String.eqb (result_obj_format rf) "BASIC") eqn:Eba.
  { apply String.eqb_eq in Eba. injection H as <- <-. split; [reflexivity|].
    left. split; [exact Eba | reflexivity]. }
  destruct (py_contains "details" ro) as [[|]|] eqn:E7; try discriminate.
  - destruct (py_getitem ro "details") as [d|] eqn:E8; [|discriminate].
    cbv beta iota zeta in H.
    destruct (level_in (result_obj_format rf) ["SUMMARY"; "COMPLETE"]) eqn:El;
      [|discriminate H].
    injection H as <- <-. split; [reflexivity|]. right. split.
    + apply level_in_two. exact El.
    + right. exists d. split; reflexivity.
  - cbv beta iota zeta in H.
    destruct (level_in (result_obj_format rf) ["SUMMARY"; "COMPLETE"]) eqn:El;
      [|discriminate H].
    injection H as <- <-. split; [reflexivity|]. right. split.
    + apply level_in_two. exact El.
    + left. split; reflexivity.
Qed.

(** ** The map decorator, case by case *)

(** Every way [_format_column_map_output] returns an outcome. *)
Lemma format_returns (rf : result_format_dict) (success : bool)
    (element_count nonnull_count : Z) (l : list pyval) (extra : pyval) (out : dict) :
  _format_column_map_output rf success element_count nonnull_count l extra
    = Returned out ->
  (result_obj_format rf = "BOOLEAN_ONLY" /\ out = [("success", PyBool success)])
  \/
  (result_obj_format rf <> "BOOLEAN_ONLY" /\
   level_in (result_obj_format rf) ["BASIC"; "SUMMARY"; "COMPLETE"] = true /\
   exists ro,
     out = [("success", PyBool success); ("result_obj", PyDict ro)] /\
     keys ro = map_fields /\
     dict_get "partial_unexpected_list" ro = Some (PyList l)).
Proof.
  unfold _format_column_map_output. intro H.
  destruct (String.eqb (result_obj_format rf) "BOOLEAN_ONLY") eqn:Eb.
  - left. apply String.eqb_eq in Eb. injection H as <-. auto.
  - right. apply String.eqb_neq in Eb. split; [exact Eb|].
    destruct (level_in (result_obj_format rf) ["BASIC"; "SUMMARY"; "COMPLETE"]);
      [|discriminate H].
    split; [reflexivity|]. injection H as <-.
    eexists. split; [reflexivity|]. split; reflexivity.
Qed.

(** Every way [column_map_expectation] returns an outcome: both queries
    were executed, in this order, and the formatter built the outcome. *)
Lemma map_returns
    (P : result_format_arg -> result result_format_dict)
    (func : DataSet -> string -> result sqlexpr)
    (self : DataSet) (column : string) (mostly : option Q)
    (result_format : option result_format_arg)
    (log log' : list query) (out : dict) :
  column_map_expectation P func self column mostly result_format log
    = (Returned out, log') ->
  exists rf cond element_count null_count unexpected_count sample,
    resolve_result_format P self result_format = Returned rf /\
    func self column = Returned cond /\
    engine self (SelectCounts (table_name self) column cond)
      = Returned (CountsRow element_count (Some null_count) (Some unexpected_count)) /\
    engine self (SelectWhere (table_name self) column cond (unexpected_count_limit rf))
      = Returned (Rows sample) /\
    log' = (log ++ [SelectCounts (table_name self) column cond;
                    SelectWhere (table_name self) column cond
                      (unexpected_count_limit rf)])%list /\
    _format_column_map_output rf
      (fst (_calc_map_expectation_success
              (element_count - null_count - unexpected_count)
              (element_count - null_count) mostly))
      element_count (element_count - null_count) sample PyNone
    = Returned out.
Proof.
  intro H. unfold_run H.
  destruct (resolve_result_format P self result_format) as [rf|] eqn:Erf;
    [|discriminate].
  destruct (func self column) as [cond|] eqn:Ef; [|discriminate].
  destruct (engine self (SelectCounts (table_name self) column cond))
    as [[ec [nc|] [uc|] | | |]|] eqn:Ec; try discriminate;
  destruct (engine self (SelectWhere (table_name self) column cond
                           (unexpected_count_limit rf)))
    as [[| | sample |]|] eqn:Ew; try discriminate.
  cbn [int_sub] in H.
  destruct (_calc_map_expectation_success (ec - nc - uc) (ec - nc) mostly)
    as [success percent] eqn:Ecalc.
  destruct (_format_column_map_output rf success ec (ec - nc) sample PyNone)
    as [o|] eqn:Efmt; [|discriminate].
  injection H as <- <-.
  exists rf, cond, ec, nc, uc, sample.
  repeat (split; [solve [reflexivity | assumption]|]).
  split; [rewrite <- app_assoc; reflexivity|].
  rewrite Ecalc. exact Efmt.
Qed.

(** ** The success decision of a map expectation *)

(** C1, as stated, fails: with [mostly] absent success is not always
    "no unexpected value".  Over a column of two nulls
    [expect_column_values_to_not_be_null] counts two unexpected rows and
    no non-null value, and the outcome is a success. *)
Lemma C1_counterexample :
  let self := SqlAlchemyDataSet all_null (level "BASIC") in
  exists out log cond element_count null_count unexpected_count,
    run (column_map_expectation parse_result_format
           expect_column_values_to_not_be_null self "x" None None)
    = (Returned out, log) /\
    expect_column_values_to_not_be_null self "x" = Returned cond /\
    engine self (SelectCounts (table_name self) "x" cond)
      = Returned (CountsRow element_count (Some null_count) (Some unexpected_count)) /\
    element_count - null_count = 0 /\
    dict_get "success" out = Some (PyBool true) /\
    ~ (true = true <-> unexpected_count = 0).
Proof.
  eexists. eexists. exists (IsNull "x"), 2, 2, 2.
  split; [vm_compute; reflexivity|].
  repeat (split; [reflexivity|]).
  intros [H _]. specialize (H eq_refl). discriminate H.
Qed.

(** C1, amended: whenever a column-map expectation returns, its [success]
    is [_calc_map_expectation_success] applied to
    [(success_count, nonnull_count, mostly)] with
    [nonnull_count = element_count - null_count] and
    [success_count = nonnull_count - unexpected_count] read from the one
    counting query; over no non-null values it is [True], whatever
    [mostly] and [unexpected_count] are; over some, with [mostly] absent it
    holds iff [unexpected_count = 0], and with [mostly = m] iff
    [success_count / nonnull_count >= m], the ratio [m] itself included. *)
Theorem C1_success_decision
    (P : result_format_arg -> result result_format_dict)
    (func : DataSet -> string -> result sqlexpr)
    (self : DataSet) (column : string) (mostly : option Q)
    (result_format : option result_format_arg)
    (log log' : list query) (out : dict) :
  column_map_expectation P func self column mostly result_format log
    = (Returned out, log') ->
  exists cond element_count null_count unexpected_count,
    func self column = Returned cond /\
    engine self (SelectCounts (table_name self) column cond)
      = Returned (CountsRow element_count (Some null_count) (Some unexpected_count)) /\
    success_decision mostly element_count null_count unexpected_count out.
Proof.
  intro H. apply map_returns in H.
  destruct H as (rf & cond & ec & nc & uc & sample & _ & Hf & Hc & _ & _ & Hfmt).
  exists cond, ec, nc, uc. split; [exact Hf|]. split; [exact Hc|].
  apply format_success in Hfmt. unfold success_decision.
  eexists. split; [exact Hfmt|]. split; [reflexivity|].
  split; [intros ->; apply calc_no_values|].
  split; [intros Hpos ->; rewrite calc_strict by exact Hpos; lia|].
  split; [intros m Hpos ->; apply calc_mostly; exact Hpos|].
  intros m Hpos -> Heq. apply calc_mostly; [exact Hpos|].
  rewrite Heq. apply Qle_refl.
Qed.

(** C1 on the specification's scenario: values between 1 and 9 with
    [mostly = 0.8] over ten rows, one of them null and one out of range. *)
Lemma C1_success_decision_witness :
  let self := SqlAlchemyDataSet scenario (level "BASIC") in
  let func := expect_column_values_to_be_between (PyInt 1) (PyInt 9) PyNone PyNone in
  exists cond element_count null_count unexpected_count,
    func self "x" = Returned cond /\
    engine self (SelectCounts (table_name self) "x" cond)
      = Returned (CountsRow element_count (Some null_count) (Some unexpected_count)) /\
    success_decision (Some (8 # 10)) element_count null_count unexpected_count
      [("success", PyBool true);
       ("result_obj",
        PyDict [("element_count", PyInt 10); ("missing_count", PyInt 1);
                ("missing_percent", PyFloat (1 # 10));
                ("unexpected_count", PyInt 1);
                ("unexpected_percent", PyFloat (1 # 9));
                ("partial_unexpected_list", PyList [PyInt 10])])].
Proof.
  intros self func.
  eapply C1_success_decision
    with (P := parse_result_format) (result_format := None) (log := []).
  vm_compute. reflexivity.
Defined.

(** ** The keys of an outcome *)

Lemma rank_cases (l : string) (r : nat) :
  rank l = Some r ->
  (r = 0%nat /\ l = "BOOLEAN_ONLY") \/ (r = 1%nat /\ l = "BASIC") \/
  (r = 2%nat /\ l = "SUMMARY") \/ (r = 3%nat /\ l = "COMPLETE").
Proof.
  unfold rank. intro H.
  destruct (String.eqb l "BOOLEAN_ONLY") eqn:E0;
    [apply String.eqb_eq in E0; injection H as <-; auto|].
  destruct (String.eqb l "BASIC") eqn:E1;
    [apply String.eqb_eq in E1; injection H as <-; auto|].
  destruct (String.eqb l "SUMMARY") eqn:E2;
    [apply String.eqb_eq in E2; injection H as <-; auto|].
  destruct (String.eqb l "COMPLETE") eqn:E3;
    [apply String.eqb_eq in E3; injection H as <-; auto 6|].
  discriminate.
Qed.

Lemma aggregate_outcome_keys
    (P : result_format_arg -> result result_format_dict)
    (func : DataSet -> string -> M pyval)
    (self : DataSet) (column : string)
    (result_format : option result_format_arg)
    (log log' : list query) (out : dict) :
  column_aggregate_expectation P func self column result_format log
    = (Returned out, log') ->
  exists rf evaluation_result log1 ro r,
    resolve_result_format P self result_format = Returned rf /\
    func self column log = (Returned evaluation_result, log1) /\
    py_getitem evaluation_result "result_obj" = Returned ro /\
    rank (result_obj_format rf) = Some r /\
    keys out = top_keys r /\
    result_obj_keys out = aggregate_keys r ro /\
    dict_get "result_obj" out = match r with O => None | _ => dict_get "result_obj" out end.
Proof.
  intro H. apply aggregate_returns in H.
  destruct H as (rf & er & log1 & ro & s & Hrf & Hf & Hro & Hs & H).
  cbv zeta in H.
  destruct H as [(Hl & -> & _) | (ec & nc & ov & mp & _ & _ & H)].
  { exists rf, er, log1, ro, 0%nat. rewrite Hl. repeat (split; [assumption || reflexivity|]).
    reflexivity. }
  destruct H as [(Hl & ->) | (Hl & H)].
  { exists rf, er, log1, ro, 1%nat. rewrite Hl. repeat (split; [assumption || reflexivity|]).
    reflexivity. }
  assert (Hr : exists r, rank (result_obj_format rf) = Some (S (S r))).
  { destruct Hl as [-> | ->]; [exists 0%nat | exists 1%nat]; reflexivity. }
  destruct Hr as [r Hr].
  exists rf, er, log1, ro, (S (S r)).
  repeat (split; [assumption || reflexivity|]).
  destruct H as [(Hd & ->) | (d & Hd & ->)];
    (split; [reflexivity|]); (split; [|reflexivity]);
    unfold aggregate_keys; rewrite Hd; reflexivity.
Qed.

Lemma map_outcome_keys
    (P : result_format_arg -> result result_format_dict)
    (func : DataSet -> string -> result sqlexpr)
    (self : DataSet) (column : string) (mostly : option Q)
    (result_format : option result_format_arg)
    (log log' : list query) (out : dict) :
  column_map_expectation P func self column mostly result_format log
    = (Returned out, log') ->
  exists rf r,
    resolve_result_format P self result_format = Returned rf /\
    rank (result_obj_format rf) = Some r /\
    keys out = top_keys r /\
    result_obj_keys out = map_keys r /\
    dict_get "result_obj" out = match r with O => None | _ => dict_get "result_obj" out end.
Proof.
  intro H. apply map_returns in H.
  destruct H as (rf & cond & ec & nc & uc & sample & Hrf & _ & _ & _ & _ & H).
  apply format_returns in H.
  destruct H as [(Hl & ->) | (Hn & Hl & ro & -> & Hk & _)].
  { exists rf, 0%nat. rewrite Hl. repeat (split; [assumption || reflexivity|]).
    reflexivity. }
  assert (Hr : exists r, rank (result_obj_format rf) = Some (S r)).
  { unfold level_in in Hl. simpl in Hl.
    repeat (apply orb_true_iff in Hl as [Hl|Hl];
            [apply String.eqb_eq in Hl; rewrite Hl; eexists; reflexivity|]).
    discriminate. }
  destruct Hr as [r Hr]. exists rf, (S r).
  repeat (split; [assumption || reflexivity|]).
  reflexivity.
Qed.

Lemma top_keys_grow (r1 r2 : nat) :
  (r1 <= r2)%nat -> incl (top_keys r1) (top_keys r2).
Proof.
  intros Hle k Hk. destruct r1, r2; simpl in *; try lia; intuition.
Qed.

Lemma aggregate_keys_grow (r1 r2 : nat) (ro : pyval) :
  (r1 <= r2)%nat -> incl (aggregate_keys r1 ro) (aggregate_keys r2 ro).
Proof.
  intros Hle k Hk.
  destruct r1 as [|[|r1]]; [destruct Hk| |];
    destruct r2 as [|[|r2]]; try lia; try exact Hk.
  unfold aggregate_keys in *.
  destruct (py_contains "details" ro) as [[|]|]; try exact Hk.
  apply in_or_app. left. exact Hk.
Qed.

Lemma map_keys_grow (r1 r2 : nat) :
  (r1 <= r2)%nat -> incl (map_keys r1) (map_keys r2).
Proof.
  intros Hle k Hk. destruct r1; [destruct Hk|]. destruct r2; [lia|exact Hk].
Qed.

(** The table-level call of C8's counterexample. *)
Lemma row_count_at_boolean_only :
  run (expect_table_row_count_to_equal digits_float_is_integer
         (SqlAlchemyDataSet scenario (level "BASIC")) (PyInt 10)
         (Some (RFString "BOOLEAN_ONLY")))
  = (Returned [("success", PyBool true);
               ("result_obj", PyDict [("observed_value", PyInt 10)])],
     [SelectCount "t"]).
Proof. reflexivity. Qed.

(** C8, as stated, fails: [expect_table_row_count_to_equal] asked for
    [BOOLEAN_ONLY] returns two keys, [success] and [result_obj]. *)
Lemma C8_counterexample :
  exists out log,
    run (expect_table_row_count_to_equal digits_float_is_integer
           (SqlAlchemyDataSet scenario (level "BASIC")) (PyInt 10)
           (Some (RFString "BOOLEAN_ONLY")))
    = (Returned out, log) /\
    keys out = ["success"; "result_obj"] /\
    keys out <> ["success"] /\
    dict_get "result_obj" out <> None.
Proof.
  eexists. eexists. split; [apply row_count_at_boolean_only|].
  split; [reflexivity|]. split; discriminate.
Qed.

(** C8, amended: for the column-map and the column-aggregate expectations
    the keys of the outcome, and the fields of its [result_obj], grow with
    the verbosity, from [BOOLEAN_ONLY] through [BASIC] and [SUMMARY] to
    [COMPLETE], and at [BOOLEAN_ONLY] the outcome has the one key [success]
    and no [result_obj]; the table-level expectations never read the
    verbosity and return the same outcome at every level. *)
Theorem C8_keys_grow_with_verbosity
    (P : result_format_arg -> result result_format_dict)
    (self : DataSet) (column : string)
    (a1 a2 : option result_format_arg) (rf1 rf2 : result_format_dict)
    (r1 r2 : nat) (log : list query) :
  resolve_result_format P self a1 = Returned rf1 ->
  resolve_result_format P self a2 = Returned rf2 ->
  rank (result_obj_format rf1) = Some r1 ->
  rank (result_obj_format rf2) = Some r2 ->
  (r1 <= r2)%nat ->
  (forall func out1 out2 l1 l2,
     column_aggregate_expectation P func self column a1 log = (Returned out1, l1) ->
     column_aggregate_expectation P func self column a2 log = (Returned out2, l2) ->
     keys_grow r1 out1 out2) /\
  (forall func mostly out1 out2 l1 l2,
     column_map_expectation P func self column mostly a1 log = (Returned out1, l1) ->
     column_map_expectation P func self column mostly a2 log = (Returned out2, l2) ->
     keys_grow r1 out1 out2) /\
  (forall sfi value min_value max_value column_index,
     expect_table_row_count_to_equal sfi self value a1
       = expect_table_row_count_to_equal sfi self value a2 /\
     expect_table_row_count_to_be_between sfi self min_value max_value a1
       = expect_table_row_count_to_be_between sfi self min_value max_value a2 /\
     expect_column_to_exist self column column_index a1
       = expect_column_to_exist self column column_index a2).
Proof.
  intros Hrf1 Hrf2 Hr1 Hr2 Hle. split; [|split].
  - intros func out1 out2 l1 l2 H1 H2.
    apply aggregate_outcome_keys in H1, H2.
    destruct H1 as (rf & er & lg & ro & r & Hrf & Hf & Hro & Hr & Hk & Hn & Hnone).
    destruct H2 as (rf' & er' & lg' & ro' & r' & Hrf' & Hf' & Hro' & Hr' & Hk' & Hn' & _).
    rewrite Hrf1 in Hrf. injection Hrf as <-.
    rewrite Hrf2 in Hrf'. injection Hrf' as <-.
    rewrite Hr1 in Hr. injection Hr as <-.
    rewrite Hr2 in Hr'. injection Hr' as <-.
    rewrite Hf in Hf'. injection Hf' as <- <-.
    rewrite Hro in Hro'. injection Hro' as <-.
    unfold keys_grow. rewrite Hk, Hk', Hn, Hn'.
    split; [apply top_keys_grow; exact Hle|].
    split; [apply aggregate_keys_grow; exact Hle|].
    intros ->. split; [reflexivity | exact Hnone].
  - intros func mostly out1 out2 l1 l2 H1 H2.
    apply map_outcome_keys in H1, H2.
    destruct H1 as (rf & r & Hrf & Hr & Hk & Hn & Hnone).
    destruct H2 as (rf' & r' & Hrf' & Hr' & Hk' & Hn' & _).
    rewrite Hrf1 in Hrf. injection Hrf as <-.
    rewrite Hrf2 in Hrf'. injection Hrf' as <-.
    rewrite Hr1 in Hr. injection Hr as <-.
    rewrite Hr2 in Hr'. injection Hr' as <-.
    unfold keys_grow. rewrite Hk, Hk', Hn, Hn'.
    split; [apply top_keys_grow; exact Hle|].
    split; [apply map_keys_grow; exact Hle|].
    intros ->. split; [reflexivity | exact Hnone].
  - intros. repeat split.
Qed.

(** C8 at [BASIC] against [SUMMARY], for the maximum of the scenario's
    column. *)
Lemma C8_keys_grow_with_verbosity_witness :
  keys_grow 1
    [("success", PyBool true);
     ("result_obj",
      PyDict [("observed_value", PyInt 10); ("element_count", PyInt 10);
              ("missing_count", PyInt 1); ("missing_percent", PyFloat (1 # 10))])]
    [("success", PyBool true);
     ("result_obj",
      PyDict [("observed_value", PyInt 10); ("element_count", PyInt 10);
              ("missing_count", PyInt 1); ("missing_percent", PyFloat (1 # 10))])].
Proof.
  refine (proj1 (C8_keys_grow_with_verbosity parse_result_format
                   (SqlAlchemyDataSet scenario (level "BASIC")) "x"
                   (Some (RFString "BASIC")) (Some (RFString "SUMMARY"))
                   (level "BASIC") (level "SUMMARY") 1 2 []
                   eq_refl eq_refl eq_refl eq_refl _)
            (expect_column_max_to_be_between (PyInt 5) PyNone PyNone PyNone)
            _ _ _ _ _ _).
  - lia.
  - vm_compute. reflexivity.
  - vm_compute. reflexivity.
Defined.

(** ** The aggregate decorator: success and unknown levels *)

(** C10: whenever a column-aggregate expectation returns, at any level,
    the [success] of the outcome is the boolean [bool(s)] of the value [s]
    the statistic function reported: [1] and a non-empty string give
    [True], [0] gives [False]. *)
Theorem C10_success_is_bool
    (P : result_format_arg -> result result_format_dict)
    (func : DataSet -> string -> M pyval)
    (self : DataSet) (column : string)
    (result_format : option result_format_arg)
    (log log' : list query) (out : dict) :
  column_aggregate_expectation P func self column result_format log
    = (Returned out, log') ->
  (exists evaluation_result log1 s,
     func self column log = (Returned evaluation_result, log1) /\
     py_getitem evaluation_result "success" = Returned s /\
     dict_get "success" out = Some (PyBool (py_bool s))) /\
  py_bool (PyInt 1) = true /\ py_bool (PyInt 0) = false /\
  (forall a s, py_bool (PyStr (String a s)) = true).
Proof.
  intro H. split; [|repeat split].
  apply aggregate_returns in H.
  destruct H as (rf & er & log1 & ro & s & _ & Hf & _ & Hs & H).
  exists er, log1, s. split; [exact Hf|]. split; [exact Hs|].
  cbv zeta in H.
  destruct H as [(_ & -> & _) | (ec & nc & ov & mp & _ & _ & H)];
    [reflexivity|].
  destruct H as [(_ & ->) | (_ & [(_ & ->) | (d & _ & ->)])]; reflexivity.
Qed.

(** C10 for a statistic that reports success as [1], at [BOOLEAN_ONLY]. *)
Lemma C10_success_is_bool_witness :
  (exists evaluation_result log1 s,
     truthy_statistic (SqlAlchemyDataSet scenario (level "BOOLEAN_ONLY")) "x" []
       = (Returned evaluation_result, log1) /\
     py_getitem evaluation_result "success" = Returned s /\
     dict_get "success" [("success", PyBool true)] = Some (PyBool (py_bool s))) /\
  py_bool (PyInt 1) = true /\ py_bool (PyInt 0) = false /\
  (forall a s, py_bool (PyStr (String a s)) = true).
Proof.
  apply (C10_success_is_bool parse_result_format truthy_statistic
           (SqlAlchemyDataSet scenario (level "BOOLEAN_ONLY")) "x" None [] []).
  reflexivity.
Defined.

(** C5, as stated, fails: with the level [FOO] the error comes after the
    statistic and the count query have both been executed. *)
Lemma C5_counterexample :
  run (column_aggregate_expectation parse_result_format
         (expect_column_max_to_be_between (PyInt 5) PyNone PyNone PyNone)
         (SqlAlchemyDataSet scenario (level "BASIC")) "x"
         (Some (RFString "FOO")))
  = (Raised (unknown_result_format "FOO"),
     [SelectAggregate sa_max "t" "x"; SelectNullCounts "t" "x"])
  /\ [SelectAggregate sa_max "t" "x"; SelectNullCounts "t" "x"] <> [].
Proof. split; [reflexivity | discriminate]. Qed.

(** C5, amended: with a level outside the four a column-aggregate
    expectation never returns an outcome; when the statistic function
    returns the required keys and the count query answers, the error is
    [ValueError("Unknown result_format ...")], and it is raised last:
    after the statistic function has run and after the count query, which
    is then the latest entry of the engine's log. *)
Theorem C5_unknown_level_raised_last
    (P : result_format_arg -> result result_format_dict)
    (func : DataSet -> string -> M pyval)
    (self : DataSet) (column : string)
    (result_format : option result_format_arg) (rf : result_format_dict)
    (log : list query) :
  resolve_result_format P self result_format = Returned rf ->
  level_in (result_obj_format rf) known_levels = false ->
  (forall out log',
     column_aggregate_expectation P func self column result_format log
       <> (Returned out, log')) /\
  (forall er ro log1 element_count null_count,
     func self column log = (Returned (PyDict er), log1) ->
     dict_has "success" er = true ->
     dict_get "result_obj" er = Some (PyDict ro) ->
     dict_has "observed_value" ro = true ->
     engine self (SelectNullCounts (table_name self) column)
       = Returned (NullCountsRow element_count null_count) ->
     (0 < element_count -> null_count <> None) ->
     column_aggregate_expectation P func self column result_format log
       = (Raised (unknown_result_format (result_obj_format rf)),
          (log1 ++ [SelectNullCounts (table_name self) column])%list)).
Proof.
  intros Hrf Hlevel. split.
  - intros out log' H. apply aggregate_outcome_keys in H.
    destruct H as (rf' & er & lg & ro & r & Hrf' & _ & _ & Hr & _).
    rewrite Hrf in Hrf'. injection Hrf' as <-.
    apply rank_cases in Hr.
    destruct Hr as [(_ & Hr) | [(_ & Hr) | [(_ & Hr) | (_ & Hr)]]];
      rewrite Hr in Hlevel; discriminate.
  - intros er ro log1 ec nc Hf Hs Hro Hov Hq Hnc.
    unfold known_levels, level_in in Hlevel. simpl in Hlevel.
    apply orb_false_iff in Hlevel as [Ebo Hlevel].
    apply orb_false_iff in Hlevel as [Eba Hlevel].
    assert (Esc : level_in (result_obj_format rf) ["SUMMARY"; "COMPLETE"] = false)
      by exact Hlevel.
    unfold dict_has in Hs, Hov.
    destruct (dict_get "success" er) as [s|] eqn:Es; [|discriminate].
    destruct (dict_get "observed_value" ro) as [ov|] eqn:Eov; [|discriminate].
    assert (Hmp : exists mp,
              (if ec >? 0
               then match nc with
                    | Some n => Returned (PyFloat (inject_Z n / inject_Z ec))
                    | None =>
                        Raised (TypeError
                          "unsupported operand type(s) for *: 'NoneType' and 'float'")
                    end
               else Returned PyNone) = Returned mp).
    { destruct (ec >? 0) eqn:Epos; [|eexists; reflexivity].
      destruct nc; [eexists; reflexivity|].
      exfalso. apply Hnc; [lia | reflexivity]. }
    destruct Hmp as [mp Hmp].
    unfold column_aggregate_expectation, bind, lift, execute, ret, raise.
    rewrite Hrf, Hf. unfold py_contains, py_getitem, dict_has.
    rewrite Es, Hro, Eov. cbn [negb]. rewrite Ebo, Hq, Hmp, Eba.
    destruct (dict_get "details" ro); cbn [negb]; rewrite Esc; reflexivity.
Qed.

(** C5 for the maximum of the scenario's column at the level [FOO]. *)
Lemma C5_unknown_level_raised_last_witness :
  let self := SqlAlchemyDataSet scenario (level "BASIC") in
  let func := expect_column_max_to_be_between (PyInt 5) PyNone PyNone PyNone in
  (forall out log',
     column_aggregate_expectation parse_result_format func self "x"
       (Some (RFString "FOO")) [] <> (Returned out, log')) /\
  column_aggregate_expectation parse_result_format func self "x"
    (Some (RFString "FOO")) []
  = (Raised (unknown_result_format "FOO"),
     [SelectAggregate sa_max "t" "x"; SelectNullCounts "t" "x"]).
Proof.
  intros self func.
  pose proof (C5_unknown_level_raised_last parse_result_format func self "x"
                (Some (RFString "FOO")) (level "FOO") [] eq_refl eq_refl)
    as [Hnever Hlast].
  split; [exact Hnever|].
  apply (Hlast [("success", PyBool true);
                ("result_obj", PyDict [("observed_value", PyInt 10)])]
               [("observed_value", PyInt 10)]
               [SelectAggregate sa_max "t" "x"] 10 (Some 1));
    try reflexivity.
  intros _. discriminate.
Defined.

(** ** The counts of the reference engine *)

Lemma checked_returns (t : Table) (tbl : string) (cols : list string)
    (ok : bool) (answer : result result_proxy) (x : result_proxy) :
  checked t tbl cols ok answer = Returned x -> answer = Returned x.
Proof.
  unfold checked. intro H.
  destruct (negb (String.eqb tbl (tbl_name t))); [discriminate|].
  destruct (find _ cols); [discriminate|].
  destruct ok; [exact H | discriminate].
Qed.

Lemma sum_case_count (f : row -> bool) (rs : list row) (n : Z) :
  sum_case f rs = Some n -> n = count_rows f rs.
Proof. destruct rs; [discriminate|]. intro H. injection H as <-. reflexivity. Qed.

Lemma count_rows_bounds (f : row -> bool) (rs : list row) :
  0 <= count_rows f rs <= Z.of_nat (List.length rs).
Proof.
  unfold count_rows. pose proof (filter_length_le f rs). lia.
Qed.

Lemma count_rows_apart (f g : row -> bool) (rs : list row) :
  (forall r, f r = true -> g r = false) ->
  count_rows f rs + count_rows g rs <= Z.of_nat (List.length rs).
Proof.
  intro Hfg. unfold count_rows.
  induction rs as [|r rs IH]; [simpl; lia|].
  simpl. destruct (f r) eqn:Ef.
  - rewrite (Hfg r Ef). simpl List.length. lia.
  - destruct (g r); simpl List.length; lia.
Qed.

(** The counting query of the reference engine, read back. *)
Lemma counts_of_table (t : Table) (default : result_format_dict)
    (column : string) (cond : sqlexpr) (ec : Z) (nc uc : option Z) :
  engine (SqlAlchemyDataSet t default)
    (SelectCounts (table_name (SqlAlchemyDataSet t default)) column cond)
    = Returned (CountsRow ec nc uc) ->
  ec = Z.of_nat (List.length (tbl_rows t)) /\
  nc = sum_case (is_null column) (tbl_rows t) /\
  uc = sum_case (holds cond) (tbl_rows t).
Proof.
  simpl. intro H. apply checked_returns in H. injection H as <- <- <-. auto.
Qed.

Lemma be_null_skips_nulls (column : string) :
  skips_nulls column (IsNotNull column).
Proof.
  intros r. unfold holds, is_null. simpl. destruct (cell r column); auto.
Qed.

Lemma in_set_skips_nulls (column : string) (values_set : list pyval) :
  values_set <> [] ->
  skips_nulls column (not_ (InTuple column values_set)).
Proof.
  intros Hne r. unfold holds, is_null. simpl.
  destruct values_set as [|v vs]; [contradiction|].
  destruct (cell r column); [reflexivity | discriminate].
Qed.

Lemma between_skips_nulls (column : string) (min_value max_value : pyval) :
  skips_nulls column
    (not_ (and_ (Compare OpGe column min_value) (Compare OpLe column max_value))).
Proof.
  intros r. unfold holds, is_null. simpl.
  destruct (cell r column); [reflexivity | discriminate].
Qed.

(** C2, as stated, fails: over a column of two nulls
    [expect_column_values_to_not_be_null] counts both rows as unexpected,
    while no value is non-null. *)
Lemma C2_counterexample :
  let self := SqlAlchemyDataSet all_null (level "BASIC") in
  exists cond element_count null_count unexpected_count,
    expect_column_values_to_not_be_null self "x" = Returned cond /\
    engine self (SelectCounts (table_name self) "x" cond)
      = Returned (CountsRow element_count (Some null_count) (Some unexpected_count)) /\
    unexpected_count = 2 /\ element_count - null_count = 0 /\
    ~ unexpected_count <= element_count - null_count.
Proof.
  exists (IsNull "x"), 2, 2, 2. repeat split. lia.
Qed.

(** C2, amended: over any table, the counts read by the counting query
    satisfy [0 <= unexpected_count <= element_count]; for
    [expect_column_values_to_be_null], [..._to_be_in_set] with a set that
    is not empty and [..._to_be_between] no null row is counted as
    unexpected, so [unexpected_count <= nonnull_count]; for
    [expect_column_values_to_not_be_null] the rows counted are the null
    rows, [unexpected_count = null_count]. *)
Theorem C2_unexpected_count_bounds
    (t : Table) (default : result_format_dict)
    (func : DataSet -> string -> result sqlexpr)
    (column : string) (cond : sqlexpr)
    (element_count null_count unexpected_count : Z) :
  func (SqlAlchemyDataSet t default) column = Returned cond ->
  engine (SqlAlchemyDataSet t default)
    (SelectCounts (table_name (SqlAlchemyDataSet t default)) column cond)
    = Returned (CountsRow element_count (Some null_count) (Some unexpected_count)) ->
  0 <= unexpected_count <= element_count /\
  0 <= null_count <= element_count /\
  ((func = expect_column_values_to_be_null \/
    (exists values_set,
       values_set <> [] /\ func = expect_column_values_to_be_in_set values_set) \/
    (exists min_value max_value cross parse,
       func = expect_column_values_to_be_between min_value max_value cross parse)) ->
   unexpected_count <= element_count - null_count) /\
  (func = expect_column_values_to_not_be_null -> unexpected_count = null_count).
Proof.
  intros Hf Hq. apply counts_of_table in Hq. destruct Hq as (-> & Hn & Hu).
  symmetry in Hn, Hu. apply sum_case_count in Hn, Hu. subst.
  split; [apply count_rows_bounds|]. split; [apply count_rows_bounds|]. split.
  - intro Hfunc.
    assert (Hskip : skips_nulls column cond).
    { destruct Hfunc as [-> | [(vs & Hvs & ->) | (a & b & c & d & ->)]].
      - injection Hf as <-. apply be_null_skips_nulls.
      - injection Hf as <-. apply in_set_skips_nulls. exact Hvs.
      - unfold expect_column_values_to_be_between in Hf.
        destruct (negb (is_none d)); [discriminate|].
        destruct (py_gt a b) as [[|]|]; try discriminate.
        destruct (is_none a && is_none b); [discriminate|].
        injection Hf as <-. apply between_skips_nulls. }
    pose proof (count_rows_apart (holds cond) (is_null column) (tbl_rows t) Hskip).
    lia.
  - intros ->. injection Hf as <-. unfold count_rows. f_equal. f_equal.
    apply filter_ext. intro r. unfold holds, is_null. simpl.
    destruct (cell r column); reflexivity.
Qed.

(** C2 on the scenario: ten rows, one null, one value out of [1, 9]. *)
Lemma C2_unexpected_count_bounds_witness :
  0 <= 1 <= 10 /\ 0 <= 1 <= 10 /\
  ((expect_column_values_to_be_between (PyInt 1) (PyInt 9) PyNone PyNone
      = expect_column_values_to_be_null \/
    (exists values_set,
       values_set <> [] /\
       expect_column_values_to_be_between (PyInt 1) (PyInt 9) PyNone PyNone
         = expect_column_values_to_be_in_set values_set) \/
    (exists min_value max_value cross parse,
       expect_column_values_to_be_between (PyInt 1) (PyInt 9) PyNone PyNone
         = expect_column_values_to_be_between min_value max_value cross parse)) ->
   1 <= 10 - 1) /\
  (expect_column_values_to_be_between (PyInt 1) (PyInt 9) PyNone PyNone
     = expect_column_values_to_not_be_null -> 1 = 1).
Proof.
  apply (C2_unexpected_count_bounds scenario (level "BASIC")
           (expect_column_values_to_be_between (PyInt 1) (PyInt 9) PyNone PyNone)
           "x"
           (not_ (and_ (Compare OpGe "x" (PyInt 1)) (Compare OpLe "x" (PyInt 9))))
           10 1 1); reflexivity.
Defined.

(** ** The schema is not consulted *)

(** C3, as stated, fails: on a column the table does not have the
    counting query is sent all the same, and the error is the engine's. *)
Lemma C3_counterexample :
  let self := SqlAlchemyDataSet scenario (level "BASIC") in
  existsb (String.eqb "y") (map name (columns self)) = false /\
  run (column_map_expectation parse_result_format
         (expect_column_values_to_be_in_set [PyInt 1]) self "y" None None)
  = (Raised (EngineError "no such column: y"),
     [SelectCounts "t" "y" (not_ (InTuple "y" [PyInt 1]))]) /\
  List.length
    (snd (run (column_map_expectation parse_result_format
                 (expect_column_values_to_be_in_set [PyInt 1]) self "y" None None)))
  <> 0%nat.
Proof. repeat split. discriminate. Qed.

(** C3, amended: a column-map expectation called with a column that is not
    in the introspected schema makes no check of its own: once the result
    format is resolved and the predicate function has returned its
    condition, the counting query is executed, and when the engine rejects
    that query the call fails with the engine's error after this one round
    trip. *)
Theorem C3_no_schema_check
    (P : result_format_arg -> result result_format_dict)
    (func : DataSet -> string -> result sqlexpr)
    (self : DataSet) (column : string) (mostly : option Q)
    (result_format : option result_format_arg)
    (rf : result_format_dict) (cond : sqlexpr) (log : list query) :
  existsb (String.eqb column) (map name (columns self)) = false ->
  resolve_result_format P self result_format = Returned rf ->
  func self column = Returned cond ->
  (exists r rest,
     column_map_expectation P func self column mostly result_format log
     = (r, (log ++ SelectCounts (table_name self) column cond :: rest)%list)) /\
  (forall e,
     engine self (SelectCounts (table_name self) column cond) = Raised e ->
     column_map_expectation P func self column mostly result_format log
     = (Raised e, (log ++ [SelectCounts (table_name self) column cond])%list)).
Proof.
  intros _ Hrf Hf. unfold column_map_expectation, bind, lift, execute, raise, shape_error.
  rewrite Hrf, Hf. split.
  - destruct (engine self (SelectCounts (table_name self) column cond))
      as [[ec nc uc | | |]|]; try (eexists; exists []; reflexivity).
    destruct (engine self (SelectWhere (table_name self) column cond
                             (unexpected_count_limit rf)))
      as [[| | sample |]|];
      try (eexists; eexists; rewrite <- app_assoc; reflexivity).
    destruct (int_sub ec nc) as [nn|];
      [|eexists; eexists; rewrite <- app_assoc; reflexivity].
    destruct (int_sub nn uc) as [sc|];
      [|eexists; eexists; rewrite <- app_assoc; reflexivity].
    destruct (_calc_map_expectation_success sc nn mostly).
    eexists; eexists; rewrite <- app_assoc; reflexivity.
  - intros e He. rewrite He. reflexivity.
Qed.

(** C3 on the scenario's table, which has no column [y]. *)
Lemma C3_no_schema_check_witness :
  let self := SqlAlchemyDataSet scenario (level "BASIC") in
  let func := expect_column_values_to_be_in_set [PyInt 1] in
  let q := SelectCounts "t" "y" (not_ (InTuple "y" [PyInt 1])) in
  (exists r rest,
     column_map_expectation parse_result_format func self "y" None None []
     = (r, q :: rest)) /\
  (forall e,
     engine self q = Raised e ->
     column_map_expectation parse_result_format func self "y" None None []
     = (Raised e, [q])).
Proof.
  intros self func q.
  apply (C3_no_schema_check parse_result_format func self "y" None None
           (level "BASIC") (not_ (InTuple "y" [PyInt 1])) []); reflexivity.
Defined.

(** ** The sample of unexpected values *)

Lemma sample_of_table (t : Table) (default : result_format_dict)
    (column : string) (cond : sqlexpr) (limit : option Z) (sample : list pyval)
    (unexpected_count : Z) :
  engine (SqlAlchemyDataSet t default)
    (SelectWhere (table_name (SqlAlchemyDataSet t default)) column cond limit)
    = Returned (Rows sample) ->
  sum_case (holds cond) (tbl_rows t) = Some unexpected_count ->
  (forall n, limit = Some n -> 0 <= n) ->
  Z.of_nat (List.length sample) = bounded unexpected_count limit.
Proof.
  simpl. intros H Hu Hlimit. apply checked_returns in H.
  apply sum_case_count in Hu. subst unexpected_count. unfold count_rows, bounded.
  destruct limit as [n|].
  - specialize (Hlimit n eq_refl).
    destruct (n <? 0) eqn:En; [apply Z.ltb_lt in En; lia|].
    injection H as <-. rewrite length_firstn, length_map. lia.
  - injection H as <-. rewrite length_map. reflexivity.
Qed.

(** C4, as stated, fails: [partial_unexpected_count = -1] goes to the
    sampling query as it is, and the four unexpected values all come back,
    where [min(unexpected_count, bound)] is [-1]. *)
Lemma C4_counterexample :
  let default :=
    {| result_obj_format := "BASIC"; partial_unexpected_count := Some (Some (-1)) |} in
  let self := SqlAlchemyDataSet scenario default in
  let cond :=
    not_ (and_ (Compare OpGe "x" (PyInt 3)) (Compare OpLe "x" (PyInt 8))) in
  let sample := [PyInt 1; PyInt 2; PyInt 9; PyInt 10] in
  run (column_map_expectation parse_result_format
         (expect_column_values_to_be_between (PyInt 3) (PyInt 8) PyNone PyNone)
         self "x" None None)
  = (Returned
       [("success", PyBool false);
        ("result_obj",
         PyDict [("element_count", PyInt 10); ("missing_count", PyInt 1);
                 ("missing_percent", PyFloat (1 # 10));
                 ("unexpected_count", PyInt 4);
                 ("unexpected_percent", PyFloat (4 # 9));
                 ("partial_unexpected_list", PyList sample)])],
     [SelectCounts "t" "x" cond; SelectWhere "t" "x" cond (Some (-1))]) /\
  engine self (SelectCounts "t" "x" cond)
    = Returned (CountsRow 10 (Some 1) (Some 4)) /\
  resolved_bound default = Some (-1) /\
  Z.of_nat (List.length sample) <> Z.min 4 (-1).
Proof.
  cbv zeta. split; [vm_compute; reflexivity|]. split; [reflexivity|].
  split; [reflexivity | discriminate].
Qed.

(** C4, amended: the bound of the sample is [partial_unexpected_count]
    when the result format has that key, otherwise none at [COMPLETE] and
    20 at any other level; it is the limit of the sampling query, passed
    as it is; and over any table, when the bound is not negative, the
    [partial_unexpected_list] of a returned outcome has
    [min(unexpected_count, bound)] elements, [unexpected_count] when there
    is no bound. *)
Theorem C4_sample_bound
    (P : result_format_arg -> result result_format_dict)
    (t : Table) (default : result_format_dict)
    (func : DataSet -> string -> result sqlexpr)
    (column : string) (mostly : option Q)
    (result_format : option result_format_arg)
    (log log' : list query) (out : dict) :
  column_map_expectation P func (SqlAlchemyDataSet t default) column mostly
    result_format log = (Returned out, log') ->
  exists rf cond element_count null_count unexpected_count,
    resolve_result_format P (SqlAlchemyDataSet t default) result_format
      = Returned rf /\
    func (SqlAlchemyDataSet t default) column = Returned cond /\
    table_engine t (SelectCounts (tbl_name t) column cond)
      = Returned (CountsRow element_count (Some null_count) (Some unexpected_count)) /\
    unexpected_count_limit rf = resolved_bound rf /\
    log' = (log ++ [SelectCounts (tbl_name t) column cond;
                    SelectWhere (tbl_name t) column cond (resolved_bound rf)])%list /\
    (result_obj_format rf <> "BOOLEAN_ONLY" ->
     exists ro sample,
       dict_get "result_obj" out = Some (PyDict ro) /\
       dict_get "partial_unexpected_list" ro = Some (PyList sample) /\
       ((forall n, resolved_bound rf = Some n -> 0 <= n) ->
        Z.of_nat (List.length sample)
          = bounded unexpected_count (resolved_bound rf))).
Proof.
  intro H. apply map_returns in H.
  destruct H as (rf & cond & ec & nc & uc & sample & Hrf & Hf & Hc & Hw & Hlog & Hfmt).
  exists rf, cond, ec, nc, uc.
  repeat (split; [solve [reflexivity | assumption]|]).
  intro Hlevel. apply format_returns in Hfmt.
  destruct Hfmt as [(Hb & _) | (_ & _ & ro & -> & _ & Hl)]; [contradiction|].
  exists ro, sample. split; [reflexivity|]. split; [exact Hl|].
  intro Hbound.
  apply counts_of_table in Hc. destruct Hc as (_ & _ & Hu).
  eapply sample_of_table; [exact Hw | symmetry; exact Hu | exact Hbound].
Qed.

(** C4 with [partial_unexpected_count = 2]: of the four values outside
    [3, 8] the sample keeps two. *)
Lemma C4_sample_bound_witness :
  let t := scenario in
  let default :=
    {| result_obj_format := "SUMMARY"; partial_unexpected_count := Some (Some 2) |} in
  let func := expect_column_values_to_be_between (PyInt 3) (PyInt 8) PyNone PyNone in
  exists rf cond element_count null_count unexpected_count,
    resolve_result_format parse_result_format (SqlAlchemyDataSet t default) None
      = Returned rf /\
    func (SqlAlchemyDataSet t default) "x" = Returned cond /\
    table_engine t (SelectCounts (tbl_name t) "x" cond)
      = Returned (CountsRow element_count (Some null_count) (Some unexpected_count)) /\
    unexpected_count_limit rf = resolved_bound rf /\
    [SelectCounts "t" "x"
       (not_ (and_ (Compare OpGe "x" (PyInt 3)) (Compare OpLe "x" (PyInt 8))));
     SelectWhere "t" "x"
       (not_ (and_ (Compare OpGe "x" (PyInt 3)) (Compare OpLe "x" (PyInt 8))))
       (Some 2)]
    = ([] ++ [SelectCounts (tbl_name t) "x" cond;
              SelectWhere (tbl_name t) "x" cond (resolved_bound rf)])%list /\
    (result_obj_format rf <> "BOOLEAN_ONLY" ->
     exists ro sample,
       dict_get "result_obj"
         [("success", PyBool false);
          ("result_obj",
           PyDict [("element_count", PyInt 10); ("missing_count", PyInt 1);
                   ("missing_percent", PyFloat (1 # 10));
                   ("unexpected_count", PyInt 2);
                   ("unexpected_percent", PyFloat (2 # 9));
                   ("partial_unexpected_list", PyList [PyInt 1; PyInt 2])])]
       = Some (PyDict ro) /\
       dict_get "partial_unexpected_list" ro = Some (PyList sample) /\
       ((forall n, resolved_bound rf = Some n -> 0 <= n) ->
        Z.of_nat (List.length sample)
          = bounded unexpected_count (resolved_bound rf))).
Proof.
  intros t default func.
  apply (C4_sample_bound parse_result_format t default func "x" None None []).
  vm_compute. reflexivity.
Defined.

(** ** Bounds given in the wrong order, or not at all *)

Lemma between_outcome_crossed (var : string) (min_value max_value observed : Z) :
  max_value < min_value ->
  between_outcome var (PyInt min_value) (PyInt max_value) (PyInt observed)
  = Returned false.
Proof.
  intro H. unfold between_outcome, py_le. simpl.
  destruct (Qle_bool (inject_Z min_value) (inject_Z observed)) eqn:E1;
    [|reflexivity].
  f_equal. apply not_true_is_false. intro E2.
  apply Qle_bool_iff in E1, E2. rewrite <- Zle_Qle in E1, E2. lia.
Qed.

(** C6: [min_value = 5 > max_value = 3].  Only
    [expect_column_values_to_be_between] rejects the bounds, before any
    query; the four aggregate expectations and
    [expect_table_row_count_to_be_between] query the engine and return
    [success = False]. *)
Theorem C6_crossed_bounds_not_rejected :
  let self := SqlAlchemyDataSet scenario (level "BASIC") in
  let aggregate func :=
    run (column_aggregate_expectation parse_result_format func self "x" None) in
  let answered (observed : pyval) (fn : aggfn) :=
    (Returned
       [("success", PyBool false);
        ("result_obj",
         PyDict [("observed_value", observed); ("element_count", PyInt 10);
                 ("missing_count", PyInt 1);
                 ("missing_percent", PyFloat (1 # 10))])],
     [SelectAggregate fn "t" "x"; SelectNullCounts "t" "x"]) in
  run (column_map_expectation parse_result_format
         (expect_column_values_to_be_between (PyInt 5) (PyInt 3) PyNone PyNone)
         self "x" None None)
  = (Raised (ValueError "min_value cannot be greater than max_value"), []) /\
  aggregate (expect_column_max_to_be_between (PyInt 5) (PyInt 3) PyNone PyNone)
  = answered (PyInt 10) sa_max /\
  aggregate (expect_column_min_to_be_between (PyInt 5) (PyInt 3) PyNone PyNone)
  = answered (PyInt 1) sa_min /\
  aggregate (expect_column_sum_to_be_between (PyInt 5) (PyInt 3))
  = answered (PyInt 51) sa_sum /\
  aggregate (expect_column_mean_to_be_between (PyInt 5) (PyInt 3))
  = answered (PyFloat (51 # 9)) sa_avg /\
  run (expect_table_row_count_to_be_between digits_float_is_integer self
         (PyInt 5) (PyInt 3) None)
  = (Returned [("success", PyBool false);
               ("result_obj", PyDict [("observed_value", PyInt 10)])],
     [SelectCount "t"]).
Proof. repeat split. Qed.

(** C7: with both bounds [None], [expect_table_row_count_to_be_between]
    first runs the count query and then fails on the unbound [outcome],
    where the aggregate expectations raise
    [ValueError("min_value and max_value cannot both be None")] before any
    query. *)
Theorem C7_row_count_without_bounds
    (P : result_format_arg -> result result_format_dict)
    (sfi : string -> option bool)
    (self : DataSet) (column : string)
    (result_format : option result_format_arg) (rf : result_format_dict)
    (log : list query) (row_count : Z) :
  engine self (SelectCount (table_name self)) = Returned (Scalar (PyInt row_count)) ->
  resolve_result_format P self result_format = Returned rf ->
  expect_table_row_count_to_be_between sfi self PyNone PyNone result_format log
  = (Raised (UnboundLocalError "outcome"),
     (log ++ [SelectCount (table_name self)])%list) /\
  (forall parse fmt,
     column_aggregate_expectation P
       (expect_column_max_to_be_between PyNone PyNone parse fmt)
       self column result_format log = (Raised both_none, log) /\
     column_aggregate_expectation P
       (expect_column_min_to_be_between PyNone PyNone parse fmt)
       self column result_format log = (Raised both_none, log)) /\
  column_aggregate_expectation P (expect_column_sum_to_be_between PyNone PyNone)
    self column result_format log = (Raised both_none, log) /\
  column_aggregate_expectation P (expect_column_mean_to_be_between PyNone PyNone)
    self column result_format log = (Raised both_none, log).
Proof.
  intros Hq Hrf. split.
  - unfold expect_table_row_count_to_be_between, bind, lift, execute, ret.
    simpl. rewrite Hq. reflexivity.
  - unfold column_aggregate_expectation, bind, lift. rewrite Hrf.
    repeat split.
Qed.

(** C7 on the scenario's table. *)
Lemma C7_row_count_without_bounds_witness :
  let self := SqlAlchemyDataSet scenario (level "BASIC") in
  expect_table_row_count_to_be_between digits_float_is_integer self
    PyNone PyNone None []
  = (Raised (UnboundLocalError "outcome"), [SelectCount "t"]) /\
  (forall parse fmt,
     column_aggregate_expectation parse_result_format
       (expect_column_max_to_be_between PyNone PyNone parse fmt)
       self "x" None [] = (Raised both_none, []) /\
     column_aggregate_expectation parse_result_format
       (expect_column_min_to_be_between PyNone PyNone parse fmt)
       self "x" None [] = (Raised both_none, [])) /\
  column_aggregate_expectation parse_result_format
    (expect_column_sum_to_be_between PyNone PyNone)
    self "x" None [] = (Raised both_none, []) /\
  column_aggregate_expectation parse_result_format
    (expect_column_mean_to_be_between PyNone PyNone)
    self "x" None [] = (Raised both_none, []).
Proof.
  intro self.
  apply (C7_row_count_without_bounds parse_result_format digits_float_is_integer
           self "x" None (level "BASIC") [] 10); reflexivity.
Defined.

(** ** The integer check of the row-count expectations *)







(** ** Further properties of the expectations *)

Lemma Qle_bool_inject (a b : Z) :
  Qle_bool (inject_Z a) (inject_Z b) = (a <=? b).
Proof.
  destruct (a <=? b) eqn:E.
  - apply Qle_bool_iff. rewrite <- Zle_Qle. apply Z.leb_le. exact E.
  - apply not_true_is_false. intro H. apply Qle_bool_iff in H.
    rewrite <- Zle_Qle in H. apply Z.leb_le in H. congruence.
Qed.

Lemma Qeq_bool_inject (a b : Z) :
  Qeq_bool (inject_Z a) (inject_Z b) = (a =? b).
Proof.
  destruct (a =? b) eqn:E.
  - apply Qeq_bool_iff. apply Z.eqb_eq in E. subst. reflexivity.
  - apply not_true_is_false. intro H. apply Qeq_bool_iff in H.
    rewrite inject_Z_injective in H. apply Z.eqb_neq in E. exact (E H).
Qed.

Lemma index_of_nonneg (x : string) (l : list string) (i : Z) :
  index_of x l = Some i -> 0 <= i.
Proof.
  revert i. induction l as [|y l IH]; intros i H; [discriminate|].
  simpl in H. destruct (String.eqb x y); [injection H as <-; lia|].
  destruct (index_of x l) as [j|]; [|discriminate].
  injection H as <-. specialize (IH j eq_refl). lia.
Qed.

(** [index_of] is the position of the first occurrence. *)
Lemma index_of_first (x : string) (l : list string) (i : Z) :
  index_of x l = Some i <->
  0 <= i /\ nth_error l (Z.to_nat i) = Some x /\ ~ In x (firstn (Z.to_nat i) l).
Proof.
  revert i. induction l as [|y l IH]; intro i.
  - simpl. split; [discriminate|]. intros (_ & H & _).
    destruct (Z.to_nat i); discriminate.
  - simpl. destruct (String.eqb x y) eqn:E.
    + apply String.eqb_eq in E. subst y. split.
      * intro H. injection H as <-. simpl. split; [lia|]. split; [reflexivity|].
        intros [].
      * intros (Hi & Hn & Hf). destruct (Z.to_nat i) as [|n] eqn:En.
        -- f_equal. lia.
        -- exfalso. apply Hf. simpl. auto.
    + apply String.eqb_neq in E. split.
      * intro H. destruct (index_of x l) as [j|] eqn:Ej; [|discriminate].
        injection H as <-. destruct (proj1 (IH j) eq_refl) as (Hj & Hn & Hf).
        replace (Z.to_nat (j + 1)) with (S (Z.to_nat j)) by lia.
        simpl. split; [lia|]. split; [exact Hn|].
        intros [Hy | Hin]; [congruence | contradiction].
      * intros (Hi & Hn & Hf). destruct (Z.to_nat i) as [|n] eqn:En.
        -- simpl in Hn. injection Hn as Hn. congruence.
        -- simpl in Hn, Hf.
           assert (Hj : index_of x l = Some (Z.of_nat n)).
           { apply IH. rewrite Nat2Z.id. split; [lia|]. split; [exact Hn|].
             intro Hin. apply Hf. right. exact Hin. }
           rewrite Hj. f_equal. lia.
Qed.

(** X1: [expect_column_to_exist] without [column_index] never queries the
    engine and never raises; its [success] says whether the schema read at
    construction has a column of that name. *)
Theorem X1_column_exists_by_name
    (self : DataSet) (column : string)
    (result_format : option result_format_arg) (log : list query) :
  exists success : bool,
    expect_column_to_exist self column PyNone result_format log
    = (Returned [("success", PyBool success)], log) /\
    (success = true <-> In column (map name (columns self))).
Proof.
  eexists. split; [reflexivity|]. simpl. rewrite existsb_exists. split.
  - intros (y & Hin & Hy). apply String.eqb_eq in Hy. subst. exact Hin.
  - intro Hin. exists column. split; [exact Hin | apply String.eqb_refl].
Qed.

(** X2: with an integer [column_index], [expect_column_to_exist] succeeds
    exactly when the first column of that name sits at that position,
    counted from 0; it never queries the engine and never raises. *)
Theorem X2_column_exists_at_index
    (self : DataSet) (column : string) (column_index : Z)
    (result_format : option result_format_arg) (log : list query) :
  exists success : bool,
    expect_column_to_exist self column (PyInt column_index) result_format log
    = (Returned [("success", PyBool success)], log) /\
    (success = true <->
     0 <= column_index /\
     nth_error (map name (columns self)) (Z.to_nat column_index) = Some column /\
     ~ In column (firstn (Z.to_nat column_index) (map name (columns self)))).
Proof.
  eexists. split; [reflexivity|]. simpl.
  rewrite <- index_of_first.
  destruct (index_of column (map name (columns self))) as [i|].
  - unfold py_int_eq. simpl. rewrite Qeq_bool_inject. rewrite Z.eqb_eq.
    split; [intros ->; reflexivity | intro H; injection H as ->; reflexivity].
  - split; discriminate.
Qed.

Lemma numeric_column_iff (self : DataSet) (column : string) :
  _is_numeric_column self column = true <->
  exists col, In col (columns self) /\ name col = column /\
              is_numeric_type (type col) = true.
Proof.
  unfold _is_numeric_column. rewrite existsb_exists. split.
  - intros (col & Hin & H). apply andb_true_iff in H as [Hn Ht].
    apply String.eqb_eq in Hn. exists col. auto.
  - intros (col & Hin & Hn & Ht). exists col. split; [exact Hin|].
    apply andb_true_iff. split; [apply String.eqb_eq; exact Hn | exact Ht].
Qed.

(** X3: [expect_column_mean_to_be_between], given at least one bound, on a
    column that the schema does not list with a numeric type (a column of
    another type, or one the schema does not have) raises
    [ValueError("column is not numeric")] before any query. *)
Theorem X3_mean_of_non_numeric_column
    (P : result_format_arg -> result result_format_dict)
    (self : DataSet) (column : string) (min_value max_value : pyval)
    (result_format : option result_format_arg) (rf : result_format_dict)
    (log : list query) :
  resolve_result_format P self result_format = Returned rf ->
  is_none min_value && is_none max_value = false ->
  (forall col, In col (columns self) -> name col = column ->
               is_numeric_type (type col) = false) ->
  column_aggregate_expectation P
    (expect_column_mean_to_be_between min_value max_value)
    self column result_format log
  = (Raised (ValueError "column is not numeric"), log).
Proof.
  intros Hrf Hb Hcol.
  assert (Hn : _is_numeric_column self column = false).
  { apply not_true_is_false. intro H. apply numeric_column_iff in H.
    destruct H as (col & Hin & Hname & Ht).
    rewrite (Hcol col Hin Hname) in Ht. discriminate. }
  unfold column_aggregate_expectation, expect_column_mean_to_be_between,
    bind, lift, raise.
  rewrite Hrf, Hb, Hn. reflexivity.
Qed.

(** X3 on the scenario's table, which has no column [y]. *)
Lemma X3_mean_of_non_numeric_column_witness :
  column_aggregate_expectation parse_result_format
    (expect_column_mean_to_be_between (PyInt 1) PyNone)
    (SqlAlchemyDataSet scenario (level "BASIC")) "y" None []
  = (Raised (ValueError "column is not numeric"), []).
Proof.
  apply (X3_mean_of_non_numeric_column parse_result_format
           (SqlAlchemyDataSet scenario (level "BASIC")) "y" (PyInt 1) PyNone
           None (level "BASIC") []); try reflexivity.
  intros col [<- | []] Hname. discriminate Hname.
Defined.

Lemma table_count (t : Table) :
  table_engine t (SelectCount (tbl_name t)) = Returned (Scalar (PyInt (row_count t))).
Proof.
  unfold table_engine, checked. rewrite String.eqb_refl. reflexivity.
Qed.

Lemma check_integer_bound (sfi : string -> option bool) (b : option Z) :
  (forall z, b = Some z -> Z.abs z < float_overflow) ->
  check_integer sfi (bound b) = Returned tt.
Proof.
  intro H. destruct b as [z|]; [|reflexivity].
  unfold check_integer. simpl.
  destruct (Z.abs z <? float_overflow) eqn:E; [reflexivity|].
  apply Z.ltb_ge in E. specialize (H z eq_refl). lia.
Qed.

Lemma between_outcome_within (var : string) (min_value max_value : option Z) (v : Z) :
  min_value <> None \/ max_value <> None ->
  between_outcome var (bound min_value) (bound max_value) (PyInt v)
  = Returned (within min_value max_value v).
Proof.
  intro H. unfold between_outcome, within, py_le.
  destruct min_value as [a|], max_value as [b|]; simpl;
    rewrite ?Qle_bool_inject.
  - destruct (a <=? v); reflexivity.
  - rewrite andb_true_r. reflexivity.
  - reflexivity.
  - destruct H as [H|H]; contradiction.
Qed.

(** X4: on a table of [n] rows, [expect_table_row_count_to_equal] given an
    integer [value] runs the one count query and returns
    [success = (n == value)] with [observed_value = n]. *)
Theorem X4_row_count_equal
    (sfi : string -> option bool) (t : Table) (default : result_format_dict)
    (value : Z) (result_format : option result_format_arg) (log : list query) :
  Z.abs value < float_overflow ->
  expect_table_row_count_to_equal sfi (SqlAlchemyDataSet t default)
    (PyInt value) result_format log
  = (Returned [("success", PyBool (row_count t =? value));
               ("result_obj", PyDict [("observed_value", PyInt (row_count t))])],
     (log ++ [SelectCount (tbl_name t)])%list).
Proof.
  intro Hv.
  unfold expect_table_row_count_to_equal, bind, lift, execute, ret,
    reraise_value_error.
  assert (Hc : check_integer sfi (PyInt value) = Returned tt).
  { apply (check_integer_bound sfi (Some value)).
    intros z Hz. injection Hz as <-. exact Hv. }
  rewrite Hc. cbn [is_none engine table_name SqlAlchemyDataSet].
  rewrite table_count. unfold py_int_eq. cbn [num_of].
  rewrite Qeq_bool_inject. reflexivity.
Qed.

(** X4 on the scenario's ten rows. *)
Lemma X4_row_count_equal_witness :
  expect_table_row_count_to_equal digits_float_is_integer
    (SqlAlchemyDataSet scenario (level "BASIC")) (PyInt 10) None []
  = (Returned [("success", PyBool true);
               ("result_obj", PyDict [("observed_value", PyInt 10)])],
     [SelectCount "t"]).
Proof.
  apply (X4_row_count_equal digits_float_is_integer scenario (level "BASIC")
           10 None []).
  reflexivity.
Defined.

(** X5: on a table of [n] rows, [expect_table_row_count_to_be_between]
    given integer bounds, at least one of them, runs the one count query
    and returns [observed_value = n] with success iff
    [min_value <= n <= max_value], a bound that is [None] not
    constraining [n]. *)
Theorem X5_row_count_between
    (sfi : string -> option bool) (t : Table) (default : result_format_dict)
    (min_value max_value : option Z)
    (result_format : option result_format_arg) (log : list query) :
  min_value <> None \/ max_value <> None ->
  (forall z, min_value = Some z \/ max_value = Some z -> Z.abs z < float_overflow) ->
  expect_table_row_count_to_be_between sfi (SqlAlchemyDataSet t default)
    (bound min_value) (bound max_value) result_format log
  = (Returned [("success", PyBool (within min_value max_value (row_count t)));
               ("result_obj", PyDict [("observed_value", PyInt (row_count t))])],
     (log ++ [SelectCount (tbl_name t)])%list)
  /\ (within min_value max_value (row_count t) = true <->
      (forall a, min_value = Some a -> a <= row_count t) /\
      (forall b, max_value = Some b -> row_count t <= b)).
Proof.
  intros Hb Hr. split.
  - unfold expect_table_row_count_to_be_between, bind, lift, execute, ret,
      reraise_value_error.
    rewrite (check_integer_bound sfi min_value) by (intros z Hz; apply Hr; auto).
    rewrite (check_integer_bound sfi max_value) by (intros z Hz; apply Hr; auto).
    cbn [engine table_name SqlAlchemyDataSet]. rewrite table_count.
    rewrite between_outcome_within by exact Hb. reflexivity.
  - unfold within. rewrite andb_true_iff.
    destruct min_value as [a|], max_value as [b|]; rewrite ?Z.leb_le; split.
    all: try (intros [H1 H2]; split; intros z Hz; try discriminate;
              injection Hz as <-; assumption).
    all: intros [H1 H2]; split;
      try reflexivity; try (apply H1; reflexivity); try (apply H2; reflexivity).
Qed.

(** X5 with only a lower bound, on the scenario's ten rows. *)
Lemma X5_row_count_between_witness :
  expect_table_row_count_to_be_between digits_float_is_integer
    (SqlAlchemyDataSet scenario (level "BASIC")) (PyInt 11) PyNone None []
  = (Returned [("success", PyBool false);
               ("result_obj", PyDict [("observed_value", PyInt 10)])],
     [SelectCount "t"]).
Proof.
  refine (proj1 (X5_row_count_between digits_float_is_integer scenario
                   (level "BASIC") (Some 11) None None [] _ _)).
  - left. discriminate.
  - intros z [H | H]; [injection H as <-; reflexivity | discriminate H].
Defined.

Lemma statistic_between_within (fn : aggfn) (min_value max_value : option Z)
    (self : DataSet) (column : string) (log : list query) (v : Z) :
  min_value <> None \/ max_value <> None ->
  engine self (SelectAggregate fn (table_name self) column)
    = Returned (Scalar (PyInt v)) ->
  statistic_between fn (bound min_value) (bound max_value) self column log
  = (Returned (PyDict [("success", PyBool (within min_value max_value v));
                       ("result_obj", PyDict [("observed_value", PyInt v)])]),
     (log ++ [SelectAggregate fn (table_name self) column])%list).
Proof.
  intros Hb Hq. unfold statistic_between, bind, lift, execute, ret.
  rewrite Hq. rewrite between_outcome_within by exact Hb. reflexivity.
Qed.

Lemma bound_not_both_none (min_value max_value : option Z) :
  min_value <> None \/ max_value <> None ->
  is_none (bound min_value) && is_none (bound max_value) = false.
Proof.
  intros [H|H]; destruct min_value, max_value; try reflexivity; contradiction.
Qed.

(** X6: the statistics behind [expect_column_max_to_be_between],
    [expect_column_min_to_be_between] and [expect_column_sum_to_be_between],
    given integer bounds, at least one of them, and no request to parse
    strings as dates, run the one aggregate query; when the engine answers
    the integer [v] they report [observed_value = v] and success iff
    [min_value <= v <= max_value], a bound that is [None] not
    constraining [v]. *)
Theorem X6_aggregate_within_bounds
    (self : DataSet) (column : string) (min_value max_value : option Z)
    (parse fmt : pyval) (log : list query) :
  min_value <> None \/ max_value <> None ->
  py_bool parse = false ->
  let answer (fn : aggfn) (v : Z) :=
    (Returned (PyDict [("success", PyBool (within min_value max_value v));
                       ("result_obj", PyDict [("observed_value", PyInt v)])]),
     (log ++ [SelectAggregate fn (table_name self) column])%list) in
  (forall v,
     engine self (SelectAggregate sa_max (table_name self) column)
       = Returned (Scalar (PyInt v)) ->
     expect_column_max_to_be_between (bound min_value) (bound max_value)
       parse fmt self column log = answer sa_max v) /\
  (forall v,
     engine self (SelectAggregate sa_min (table_name self) column)
       = Returned (Scalar (PyInt v)) ->
     expect_column_min_to_be_between (bound min_value) (bound max_value)
       parse fmt self column log = answer sa_min v) /\
  (forall v,
     engine self (SelectAggregate sa_sum (table_name self) column)
       = Returned (Scalar (PyInt v)) ->
     expect_column_sum_to_be_between (bound min_value) (bound max_value)
       self column log = answer sa_sum v) /\
  (forall v,
     within min_value max_value v = true <->
     (forall a, min_value = Some a -> a <= v) /\
     (forall b, max_value = Some b -> v <= b)).
Proof.
  intros Hb Hp answer. pose proof (bound_not_both_none _ _ Hb) as Hn.
  unfold expect_column_max_to_be_between, expect_column_min_to_be_between,
    expect_column_sum_to_be_between. rewrite Hn, Hp.
  split; [|split; [|split]];
    try (intros v Hq; apply statistic_between_within; assumption).
  intro v. unfold within. rewrite andb_true_iff.
  destruct min_value as [a|], max_value as [b|]; rewrite ?Z.leb_le; split.
  all: try (intros [H1 H2]; split; intros z Hz; try discriminate;
            injection Hz as <-; assumption).
  all: intros [H1 H2]; split;
    try reflexivity; try (apply H1; reflexivity); try (apply H2; reflexivity).
Qed.

(** X6 on the scenario's column, whose greatest value is 10, with the
    lower bound 5. *)
Lemma X6_aggregate_within_bounds_witness :
  expect_column_max_to_be_between (PyInt 5) PyNone PyNone PyNone
    (SqlAlchemyDataSet scenario (level "BASIC")) "x" []
  = (Returned (PyDict [("success", PyBool true);
                       ("result_obj", PyDict [("observed_value", PyInt 10)])]),
     [SelectAggregate sa_max "t" "x"]).
Proof.
  refine (proj1 (X6_aggregate_within_bounds
                   (SqlAlchemyDataSet scenario (level "BASIC")) "x"
                   (Some 5) None PyNone PyNone [] _ eq_refl) 10 eq_refl).
  left. discriminate.
Defined.

(** X7: a statistic function whose dictionary lacks [success] or
    [result_obj], or whose [result_obj] is a dictionary without
    [observed_value], makes the aggregate decorator raise
    [ValueError("Column aggregate expectation failed to return required
    return information.")] at every level, [BOOLEAN_ONLY] included, and
    with no query beyond those of the statistic function. *)
Theorem X7_aggregate_contract
    (P : result_format_arg -> result result_format_dict)
    (func : DataSet -> string -> M pyval)
    (self : DataSet) (column : string)
    (result_format : option result_format_arg) (rf : result_format_dict)
    (log log1 : list query) (er : dict) :
  resolve_result_format P self result_format = Returned rf ->
  func self column log = (Returned (PyDict er), log1) ->
  dict_has "success" er = false \/
  dict_has "result_obj" er = false \/
  (exists ro, dict_get "result_obj" er = Some (PyDict ro) /\
              dict_has "observed_value" ro = false) ->
  column_aggregate_expectation P func self column result_format log
  = (Raised missing_info, log1).
Proof.
  intros Hrf Hf H.
  unfold column_aggregate_expectation, bind, lift, raise.
  rewrite Hrf, Hf. cbn [py_contains].
  destruct (dict_has "success" er) eqn:Es; [|reflexivity].
  cbn [negb].
  destruct H as [H | [H | (ro & Hro & Hov)]]; [discriminate | |].
  - rewrite H. reflexivity.
  - assert (Hh : dict_has "result_obj" er = true)
      by (unfold dict_has; rewrite Hro; reflexivity).
    rewrite Hh. cbn [negb py_getitem]. rewrite Hro.
    cbn [py_contains]. rewrite Hov. reflexivity.
Qed.

(** X7 for a statistic that returns only [success], asked at
    [BOOLEAN_ONLY]. *)
Lemma X7_aggregate_contract_witness :
  column_aggregate_expectation parse_result_format
    (fun _ _ => ret (PyDict [("success", PyBool true)]))
    (SqlAlchemyDataSet scenario (level "BOOLEAN_ONLY")) "x" None []
  = (Raised missing_info, []).
Proof.
  apply (X7_aggregate_contract parse_result_format
           (fun _ _ => ret (PyDict [("success", PyBool true)]))
           (SqlAlchemyDataSet scenario (level "BOOLEAN_ONLY")) "x" None
           (level "BOOLEAN_ONLY") [] [] [("success", PyBool true)]);
    try reflexivity.
  right. left. reflexivity.
Defined.

(** X8: an aggregate outcome returned above [BOOLEAN_ONLY] cost one query
    more than the statistic, the count query, and its [result_obj] carries
    the statistic's [observed_value] unchanged, the [element_count] and the
    null count of that query as [missing_count], and [missing_percent]:
    [None] when the table has no rows, the quotient otherwise; at
    [BOOLEAN_ONLY] no count query is made. *)
Theorem X8_aggregate_payload
    (P : result_format_arg -> result result_format_dict)
    (func : DataSet -> string -> M pyval)
    (self : DataSet) (column : string)
    (result_format : option result_format_arg)
    (log log' : list query) (out : dict) :
  column_aggregate_expectation P func self column result_format log
    = (Returned out, log') ->
  exists rf evaluation_result log1 ro,
    resolve_result_format P self result_format = Returned rf /\
    func self column log = (Returned evaluation_result, log1) /\
    py_getitem evaluation_result "result_obj" = Returned ro /\
    (result_obj_format rf = "BOOLEAN_ONLY" -> log' = log1) /\
    (result_obj_format rf <> "BOOLEAN_ONLY" ->
     exists element_count null_count fields,
       engine self (SelectNullCounts (table_name self) column)
         = Returned (NullCountsRow element_count null_count) /\
       log' = (log1 ++ [SelectNullCounts (table_name self) column])%list /\
       dict_get "result_obj" out = Some (PyDict fields) /\
       py_getitem ro "observed_value"
         = match dict_get "observed_value" fields with
           | Some v => Returned v
           | None => Raised (KeyError "observed_value")
           end /\
       dict_has "observed_value" fields = true /\
       dict_get "element_count" fields = Some (PyInt element_count) /\
       dict_get "missing_count" fields = Some (py_of_count null_count) /\
       (element_count <= 0 ->
        dict_get "missing_percent" fields = Some PyNone) /\
       (0 < element_count ->
        exists n, null_count = Some n /\
                  dict_get "missing_percent" fields
                  = Some (PyFloat (inject_Z n / inject_Z element_count)))).
Proof.
  intro H. unfold_run H.
  destruct (resolve_result_format P self result_format) as [rf|] eqn:Erf;
    [|discriminate].
  destruct (func self column log) as [[er|] log1] eqn:Ef; [|discriminate].
  destruct (py_contains "success" er) as [[|]|] eqn:E1; try discriminate.
  cbn [negb] in H.
  destruct (py_contains "result_obj" er) as [[|]|] eqn:E2; try discriminate.
  cbn [negb] in H.
  destruct (py_getitem er "result_obj") as [ro|] eqn:E3; [|discriminate].
  destruct (py_contains "observed_value" ro) as [[|]|] eqn:E4; try discriminate.
  cbn [negb] in H.
  destruct (py_getitem er "success") as [s|] eqn:E5; [|discriminate].
  exists rf, er, log1, ro.
  repeat (split; [solve [reflexivity | assumption]|]).
  destruct (String.eqb (result_obj_format rf) "BOOLEAN_ONLY") eqn:Eb.
  { apply String.eqb_eq in Eb. injection H as <- <-.
    split; [reflexivity | intro Hn; contradiction]. }
  split; [intro Hl; rewrite Hl in Eb; discriminate|]. intros _.
  destruct (engine self (SelectNullCounts (table_name self) column))
    as [[| ec nc | |]|] eqn:Eq; try discriminate.
  destruct (py_getitem ro "observed_value") as [ov|] eqn:E6; [|discriminate].
  destruct (ec >? 0) eqn:Epos.
  - destruct nc as [n|]; [|discriminate].
    assert (Hpos : 0 < ec) by lia.
    destruct (String.eqb (result_obj_format rf) "BASIC").
    + injection H as <- <-. exists ec, (Some n). eexists.
      split; [reflexivity|]. split; [reflexivity|]. split; [reflexivity|].
      repeat (split; [reflexivity|]).
      split; [intro; lia | intros _; exists n; split; reflexivity].
    + destruct (py_contains "details" ro) as [[|]|]; try discriminate.
      * destruct (py_getitem ro "details") as [d|]; [|discriminate].
        cbv beta iota zeta in H.
        destruct (level_in (result_obj_format rf) ["SUMMARY"; "COMPLETE"]);
          [|discriminate H].
        injection H as <- <-. exists ec, (Some n). eexists.
        split; [reflexivity|]. split; [reflexivity|]. split; [reflexivity|].
        repeat (split; [reflexivity|]).
        split; [intro; lia | intros _; exists n; split; reflexivity].
      * cbv beta iota zeta in H.
        destruct (level_in (result_obj_format rf) ["SUMMARY"; "COMPLETE"]);
          [|discriminate H].
        injection H as <- <-. exists ec, (Some n). eexists.
        split; [reflexivity|]. split; [reflexivity|]. split; [reflexivity|].
        repeat (split; [reflexivity|]).
        split; [intro; lia | intros _; exists n; split; reflexivity].
  - assert (Hneg : ec <= 0) by lia.
    destruct (String.eqb (result_obj_format rf) "BASIC").
    + injection H as <- <-. exists ec, nc. eexists.
      split; [reflexivity|]. split; [reflexivity|]. split; [reflexivity|].
      repeat (split; [reflexivity|]).
      intro; lia.
    + destruct (py_contains "details" ro) as [[|]|]; try discriminate.
      * destruct (py_getitem ro "details") as [d|]; [|discriminate].
        cbv beta iota zeta in H.
        destruct (level_in (result_obj_format rf) ["SUMMARY"; "COMPLETE"]);
          [|discriminate H].
        injection H as <- <-. exists ec, nc. eexists.
        split; [reflexivity|]. split; [reflexivity|]. split; [reflexivity|].
        repeat (split; [reflexivity|]).
        intro; lia.
      * cbv beta iota zeta in H.
        destruct (level_in (result_obj_format rf) ["SUMMARY"; "COMPLETE"]);
          [|discriminate H].
        injection H as <- <-. exists ec, nc. eexists.
        split; [reflexivity|]. split; [reflexivity|]. split; [reflexivity|].
        repeat (split; [reflexivity|]).
        intro; lia.
Qed.

(** X8 for the maximum of the scenario's column at [BASIC]. *)
Lemma X8_aggregate_payload_witness :
  let self := SqlAlchemyDataSet scenario (level "BASIC") in
  let func := expect_column_max_to_be_between (PyInt 5) PyNone PyNone PyNone in
  let out :=
    [("success", PyBool true);
     ("result_obj",
      PyDict [("observed_value", PyInt 10); ("element_count", PyInt 10);
              ("missing_count", PyInt 1); ("missing_percent", PyFloat (1 # 10))])] in
  let log' := [SelectAggregate sa_max "t" "x"; SelectNullCounts "t" "x"] in
  exists rf evaluation_result log1 ro,
    resolve_result_format parse_result_format self None = Returned rf /\
    func self "x" [] = (Returned evaluation_result, log1) /\
    py_getitem evaluation_result "result_obj" = Returned ro /\
    (result_obj_format rf = "BOOLEAN_ONLY" -> log' = log1) /\
    (result_obj_format rf <> "BOOLEAN_ONLY" ->
     exists element_count null_count fields,
       engine self (SelectNullCounts (table_name self) "x")
         = Returned (NullCountsRow element_count null_count) /\
       log' = (log1 ++ [SelectNullCounts (table_name self) "x"])%list /\
       dict_get "result_obj" out = Some (PyDict fields) /\
       py_getitem ro "observed_value"
         = match dict_get "observed_value" fields with
           | Some v => Returned v
           | None => Raised (KeyError "observed_value")
           end /\
       dict_has "observed_value" fields = true /\
       dict_get "element_count" fields = Some (PyInt element_count) /\
       dict_get "missing_count" fields = Some (py_of_count null_count) /\
       (element_count <= 0 ->
        dict_get "missing_percent" fields = Some PyNone) /\
       (0 < element_count ->
        exists n, null_count = Some n /\
                  dict_get "missing_percent" fields
                  = Some (PyFloat (inject_Z n / inject_Z element_count)))).
Proof.
  intros self func out log'.
  apply (X8_aggregate_payload parse_result_format func self "x" None [] log' out).
  vm_compute. reflexivity.
Defined.

(** ** Which rows a condition marks *)

Lemma count_rows_split (f g : row -> bool) (rs : list row) :
  (forall r, f r = negb (g r)) ->
  count_rows f rs = Z.of_nat (List.length rs) - count_rows g rs.
Proof.
  intro Hfg. unfold count_rows.
  induction rs as [|r rs IH]; [reflexivity|].
  cbn [filter]. rewrite (Hfg r).
  destruct (g r); cbn [negb List.length]; rewrite ?Nat2Z.inj_succ; lia.
Qed.

Lemma existsb_int_eq (v : Z) (vs : list Z) :
  existsb (py_int_eq v) (map PyInt vs) = true <-> In v vs.
Proof.
  rewrite existsb_exists. split.
  - intros (x & Hin & Hx). apply in_map_iff in Hin. destruct Hin as (z & <- & Hz).
    unfold py_int_eq in Hx. simpl in Hx. rewrite Qeq_bool_inject in Hx.
    apply Z.eqb_eq in Hx. subst. exact Hz.
  - intro Hin. exists (PyInt v). split; [apply in_map; exact Hin|].
    unfold py_int_eq. simpl. rewrite Qeq_bool_inject. apply Z.eqb_refl.
Qed.

Lemma no_none_among_ints (vs : list Z) : existsb is_none (map PyInt vs) = false.
Proof. induction vs; [reflexivity | exact IHvs]. Qed.

(** X9: the condition of [expect_column_values_to_be_between] with integer
    bounds [min_value <= max_value] marks a row exactly when its value is
    not null and lies outside the bounds; a null value is never marked. *)
Theorem X9_between_marks_outside
    (self : DataSet) (column : string) (min_value max_value : Z) (cross : pyval) :
  min_value <= max_value ->
  exists cond,
    expect_column_values_to_be_between (PyInt min_value) (PyInt max_value)
      cross PyNone self column = Returned cond /\
    forall r,
      holds cond r = true <->
      exists v, cell r column = Some v /\ (v < min_value \/ max_value < v).
Proof.
  intro Hle. eexists. split.
  - unfold expect_column_values_to_be_between, py_gt. simpl.
    rewrite Qle_bool_inject.
    destruct (min_value <=? max_value) eqn:E; [reflexivity|].
    apply Z.leb_gt in E. lia.
  - intro r. unfold holds. simpl. destruct (cell r column) as [v|].
    + unfold compare3. rewrite !Qle_bool_inject.
      destruct (min_value <=? v) eqn:E1, (v <=? max_value) eqn:E2; simpl;
        rewrite ?Z.leb_le, ?Z.leb_gt in *.
      * split; [discriminate|]. intros (w & Hw & Ho). injection Hw as <-. lia.
      * split; [|reflexivity]. intros _. exists v. split; [reflexivity | lia].
      * split; [|reflexivity]. intros _. exists v. split; [reflexivity | lia].
      * split; [|reflexivity]. intros _. exists v. split; [reflexivity | lia].
    + split; [discriminate|]. intros (w & Hw & _). discriminate.
Qed.

(** X9 for the bounds 1 and 9. *)
Lemma X9_between_marks_outside_witness :
  exists cond,
    expect_column_values_to_be_between (PyInt 1) (PyInt 9) PyNone PyNone
      (SqlAlchemyDataSet scenario (level "BASIC")) "x" = Returned cond /\
    forall r,
      holds cond r = true <->
      exists v, cell r "x" = Some v /\ (v < 1 \/ 9 < v).
Proof.
  apply (X9_between_marks_outside (SqlAlchemyDataSet scenario (level "BASIC"))
           "x" 1 9 PyNone).
  lia.
Defined.

(** X10: the condition of [expect_column_values_to_be_in_set] for a set of
    integers that is not empty marks a row exactly when its value is not
    null and is not in the set. *)
Theorem X10_in_set_marks_non_members
    (self : DataSet) (column : string) (values_set : list Z) (r : row) :
  values_set <> [] ->
  exists cond,
    expect_column_values_to_be_in_set (map PyInt values_set) self column
      = Returned cond /\
    (holds cond r = true <->
     exists v, cell r column = Some v /\ ~ In v values_set).
Proof.
  intro Hne. eexists. split; [reflexivity|]. unfold holds.
  destruct values_set as [|z zs]; [contradiction|].
  remember (z :: zs) as values_set eqn:Hvs.
  assert (Hin : eval3 r (not_ (InTuple column (map PyInt values_set)))
                = not3 (match cell r column with
                        | None => None
                        | Some v => in3 v (map PyInt values_set)
                        end))
    by (subst values_set; reflexivity).
  rewrite Hin. clear Hin Hvs Hne. cbn [not3].
  destruct (cell r column) as [v|].
  - unfold in3. rewrite no_none_among_ints.
    destruct (existsb (py_int_eq v) (map PyInt values_set)) eqn:E; simpl.
    + apply existsb_int_eq in E. split; [discriminate|].
      intros (w & Hw & Hn). injection Hw as <-. contradiction.
    + split; [|reflexivity]. intros _. exists v. split; [reflexivity|].
      intro Hin. apply existsb_int_eq in Hin. congruence.
  - split; [discriminate|]. intros (w & Hw & _). discriminate.
Qed.

(** X11: when the set given to [expect_column_values_to_be_in_set] contains
    [None], the condition marks no row at all, whatever the row holds:
    [NOT (c IN (..., NULL))] is never true. *)
Theorem X11_in_set_with_none_marks_nothing
    (self : DataSet) (column : string) (values_set : list pyval) (r : row) :
  In PyNone values_set ->
  exists cond,
    expect_column_values_to_be_in_set values_set self column = Returned cond /\
    holds cond r = false.
Proof.
  intro Hin. eexists. split; [reflexivity|]. unfold holds. simpl.
  destruct values_set as [|x xs]; [destruct Hin|].
  destruct (cell r column) as [v|]; [|reflexivity].
  unfold in3. destruct (existsb (py_int_eq v) (x :: xs)); [reflexivity|].
  assert (Hn : existsb is_none (x :: xs) = true).
  { apply existsb_exists. exists PyNone. split; [exact Hin | reflexivity]. }
  rewrite Hn. reflexivity.
Qed.

(** X11 for the set [{1, None}] and a row holding 7. *)
Lemma X10_in_set_marks_non_members_witness :
  exists cond,
    expect_column_values_to_be_in_set (map PyInt [1; 2])
      (SqlAlchemyDataSet scenario (level "BASIC")) "x" = Returned cond /\
    (holds cond (int_row "x" (Some 7)) = true <->
     exists v, cell (int_row "x" (Some 7)) "x" = Some v /\ ~ In v [1; 2]).
Proof.
  apply (X10_in_set_marks_non_members
           (SqlAlchemyDataSet scenario (level "BASIC")) "x" [1; 2]
           (int_row "x" (Some 7))).
  discriminate.
Defined.

Lemma X11_in_set_with_none_marks_nothing_witness :
  exists cond,
    expect_column_values_to_be_in_set [PyInt 1; PyNone]
      (SqlAlchemyDataSet scenario (level "BASIC")) "x" = Returned cond /\
    holds cond (int_row "x" (Some 7)) = false.
Proof.
  apply (X11_in_set_with_none_marks_nothing
           (SqlAlchemyDataSet scenario (level "BASIC")) "x" [PyInt 1; PyNone]
           (int_row "x" (Some 7))).
  right. left. reflexivity.
Defined.

(** X12: over any table with a row, the counting query of
    [expect_column_values_to_be_null] counts as unexpected exactly the
    rows that are not null: [unexpected_count = element_count - null_count]. *)
Theorem X12_be_null_counts_non_nulls
    (t : Table) (default : result_format_dict) (column : string)
    (element_count null_count unexpected_count : Z) :
  engine (SqlAlchemyDataSet t default)
    (SelectCounts (table_name (SqlAlchemyDataSet t default)) column
       (IsNotNull column))
    = Returned (CountsRow element_count (Some null_count) (Some unexpected_count)) ->
  expect_column_values_to_be_null (SqlAlchemyDataSet t default) column
    = Returned (IsNotNull column) /\
  unexpected_count = element_count - null_count.
Proof.
  intro Hq. split; [reflexivity|].
  apply counts_of_table in Hq. destruct Hq as (-> & Hn & Hu).
  symmetry in Hn, Hu. apply sum_case_count in Hn, Hu. subst.
  apply count_rows_split. intro r. unfold holds, is_null. simpl.
  destruct (cell r column); reflexivity.
Qed.

(** X12 on the scenario: ten rows, one null, nine counted. *)
Lemma X12_be_null_counts_non_nulls_witness :
  expect_column_values_to_be_null (SqlAlchemyDataSet scenario (level "BASIC")) "x"
    = Returned (IsNotNull "x") /\
  9 = 10 - 1.
Proof.
  apply (X12_be_null_counts_non_nulls scenario (level "BASIC") "x" 10 1 9).
  reflexivity.
Defined.

(** ** A table without rows *)

(** X13: over a table without rows no column-map expectation returns an
    outcome: the sums of the counting query are [NULL], so once both
    queries have been answered the subtraction
    [element_count - null_count] fails with [TypeError]. *)
Theorem X13_map_over_empty_table
    (P : result_format_arg -> result result_format_dict)
    (t : Table) (default : result_format_dict)
    (func : DataSet -> string -> result sqlexpr)
    (column : string) (mostly : option Q)
    (result_format : option result_format_arg)
    (rf : result_format_dict) (cond : sqlexpr) (log : list query) :
  tbl_rows t = [] ->
  resolve_result_format P (SqlAlchemyDataSet t default) result_format
    = Returned rf ->
  func (SqlAlchemyDataSet t default) column = Returned cond ->
  (forall out log',
     column_map_expectation P func (SqlAlchemyDataSet t default) column mostly
       result_format log <> (Returned out, log')) /\
  (forall counts sample,
     table_engine t (SelectCounts (tbl_name t) column cond) = Returned counts ->
     table_engine t (SelectWhere (tbl_name t) column cond (unexpected_count_limit rf))
       = Returned sample ->
     column_map_expectation P func (SqlAlchemyDataSet t default) column mostly
       result_format log
     = (Raised (TypeError "unsupported operand type(s) for -: 'int' and 'NoneType'"),
        (log ++ [SelectCounts (tbl_name t) column cond;
                 SelectWhere (tbl_name t) column cond
                   (unexpected_count_limit rf)])%list)).
Proof.
  intros Hrows Hrf Hf. split.
  - intros out log' H. apply map_returns in H.
    destruct H as (rf' & cond' & ec & nc & uc & sample & _ & _ & Hc & _).
    apply counts_of_table in Hc. destruct Hc as (_ & Hn & _).
    rewrite Hrows in Hn. discriminate Hn.
  - intros counts sample Hc Hw.
    unfold column_map_expectation, bind, lift, execute.
    rewrite Hrf, Hf. cbn [engine table_name SqlAlchemyDataSet].
    rewrite Hc, Hw.
    simpl in Hc, Hw. apply checked_returns in Hc, Hw. rewrite Hrows in Hc, Hw.
    injection Hc as <-.
    assert (Hs : exists l, sample = Rows l).
    { destruct (unexpected_count_limit rf) as [n|];
        injection Hw as <-; eexists; reflexivity. }
    destruct Hs as [l ->]. cbn [sum_case int_sub]. rewrite <- app_assoc.
    reflexivity.
Qed.

(** X13 for the scenario's table emptied of its rows. *)
Lemma X13_map_over_empty_table_witness :
  let t := {| tbl_name := "t"; tbl_columns := tbl_columns scenario; tbl_rows := [] |} in
  let self := SqlAlchemyDataSet t (level "BASIC") in
  (forall out log',
     column_map_expectation parse_result_format
       expect_column_values_to_be_null self "x" None None []
     <> (Returned out, log')) /\
  (forall counts sample,
     table_engine t (SelectCounts "t" "x" (IsNotNull "x")) = Returned counts ->
     table_engine t (SelectWhere "t" "x" (IsNotNull "x") (Some 20)) = Returned sample ->
     column_map_expectation parse_result_format
       expect_column_values_to_be_null self "x" None None []
     = (Raised (TypeError "unsupported operand type(s) for -: 'int' and 'NoneType'"),
        [SelectCounts "t" "x" (IsNotNull "x");
         SelectWhere "t" "x" (IsNotNull "x") (Some 20)])).
Proof.
  intros t self.
  apply (X13_map_over_empty_table parse_result_format t (level "BASIC")
           expect_column_values_to_be_null "x" None None (level "BASIC")
           (IsNotNull "x") []); reflexivity.
Defined.

(** ** The flag [parse_strings_as_datetimes] *)

(** X14: the two kinds of expectation read [parse_strings_as_datetimes]
    differently.  [expect_column_values_to_be_between] rejects any value
    but [None], whatever the bounds; [expect_column_max_to_be_between] and
    [expect_column_min_to_be_between] reject only a true value: given a
    value that is false but not [None] ([False], [0], an empty string) and
    a bound, they go on to their query. *)
Theorem X14_parse_flag
    (parse : pyval) (self : DataSet) (column : string)
    (min_value max_value other : pyval) (log : list query) :
  is_none parse = false ->
  is_none min_value && is_none max_value = false ->
  expect_column_values_to_be_between min_value max_value other parse self column
  = Raised (ValueError
      "parse_strings_as_datetimes is not currently supported in SqlAlchemy.") /\
  (py_bool parse = false ->
   expect_column_max_to_be_between min_value max_value parse other self column log
   = statistic_between sa_max min_value max_value self column log /\
   expect_column_min_to_be_between min_value max_value parse other self column log
   = statistic_between sa_min min_value max_value self column log /\
   snd (expect_column_max_to_be_between min_value max_value parse other
          self column log)
   = (log ++ [SelectAggregate sa_max (table_name self) column])%list) /\
  (py_bool parse = true ->
   expect_column_max_to_be_between min_value max_value parse other self column log
   = (Raised (ValueError "parse_strings_as_datetimes is not supported in SqlAlchemy"),
      log) /\
   expect_column_min_to_be_between min_value max_value parse other self column log
   = (Raised (ValueError "parse_strings_as_datetimes is not supported in SqlAlchemy"),
      log)).
Proof.
  intros Hn Hb. split; [|split].
  - unfold expect_column_values_to_be_between. rewrite Hn. reflexivity.
  - intro Hp.
    unfold expect_column_max_to_be_between, expect_column_min_to_be_between.
    rewrite Hb, Hp. split; [reflexivity|]. split; [reflexivity|].
    unfold statistic_between, bind, execute.
    destruct (engine self (SelectAggregate sa_max (table_name self) column))
      as [[| | |observed]|]; try reflexivity.
    unfold lift. destruct (between_outcome "success" min_value max_value observed);
      reflexivity.
  - intro Hp.
    unfold expect_column_max_to_be_between, expect_column_min_to_be_between.
    rewrite Hb, Hp. split; reflexivity.
Qed.

(** X14 for [parse_strings_as_datetimes = False]. *)
Lemma X14_parse_flag_witness :
  let self := SqlAlchemyDataSet scenario (level "BASIC") in
  expect_column_values_to_be_between (PyInt 1) (PyInt 9) PyNone (PyBool false)
    self "x"
  = Raised (ValueError
      "parse_strings_as_datetimes is not currently supported in SqlAlchemy.") /\
  snd (expect_column_max_to_be_between (PyInt 1) (PyInt 9) (PyBool false) PyNone
         self "x" [])
  = [SelectAggregate sa_max "t" "x"].
Proof.
  intro self.
  pose proof (X14_parse_flag (PyBool false) self "x" (PyInt 1) (PyInt 9) PyNone []
                eq_refl eq_refl) as (Hmap & Hfalse & _).
  split; [exact Hmap|]. exact (proj2 (proj2 (Hfalse eq_refl))).
Defined.

(** ** [DotDict] *)

Lemma dict_get_set_same (k : string) (v : pyval) (d : dict) :
  dict_get k (dict_set k v d) = Some v.
Proof.
  induction d as [|[k' v'] d IH]; simpl.
  - rewrite String.eqb_refl. reflexivity.
  - destruct (String.eqb k k') eqn:E; simpl.
    + rewrite String.eqb_refl. reflexivity.
    + rewrite E. exact IH.
Qed.

Lemma dict_get_set_other (k k' : string) (v : pyval) (d : dict) :
  k' <> k -> dict_get k' (dict_set k v d) = dict_get k' d.
Proof.
  intro Hne. induction d as [|[k0 v0] d IH]; simpl.
  - apply String.eqb_neq in Hne. rewrite Hne. reflexivity.
  - destruct (String.eqb k k0) eqn:E; simpl.
    + apply String.eqb_eq in E. subst k0.
      apply String.eqb_neq in Hne. rewrite Hne. reflexivity.
    + destruct (String.eqb k' k0); [reflexivity | exact IH].
Qed.

Lemma dict_get_remove_same (k : string) (d : dict) :
  dict_get k (DotDict.remove k d) = None.
Proof.
  induction d as [|[k' v'] d IH]; [reflexivity|].
  unfold DotDict.remove in *. simpl.
  destruct (String.eqb k k') eqn:E; simpl; [exact IH|].
  rewrite E. exact IH.
Qed.

Lemma dict_get_remove_other (k k' : string) (d : dict) :
  k' <> k -> dict_get k' (DotDict.remove k d) = dict_get k' d.
Proof.
  intro Hne. induction d as [|[k0 v0] d IH]; [reflexivity|].
  unfold DotDict.remove in *. simpl.
  destruct (String.eqb k k0) eqn:E; simpl.
  - apply String.eqb_eq in E. subst k0.
    apply String.eqb_neq in Hne. rewrite Hne. exact IH.
  - destruct (String.eqb k' k0); [reflexivity | exact IH].
Qed.

Lemma keys_set (k : string) (v : pyval) (d : dict) : In k (keys (dict_set k v d)).
Proof.
  induction d as [|[k' v'] d IH]; simpl; [auto|].
  destruct (String.eqb k k'); simpl; auto.
Qed.

(** X15: for a name the class does not have, [DotDict] reads back what
    was set: after [d.k = v] the attribute [k] is [v]; one never set reads
    as [None] instead of raising; after [del d.k] it reads as [None].  For
    a name the class has ([keys], [copy], ...) the assignment stores the
    item, yet reading the attribute still gives the class's own.  In both
    cases the name is listed by [dir] after the assignment, the other
    attributes are left as they were by an assignment or a deletion, and
    deleting a name that is no item raises [KeyError]. *)
Theorem X15_dotdict_attributes
    (on_class : string -> bool) (d : dict) (k : string) (v : pyval) :
  (on_class k = false ->
   DotDict.getattr on_class (DotDict.__setattr__ d k v) k = DotDict.Item v) /\
  (on_class k = true ->
   DotDict.getattr on_class (DotDict.__setattr__ d k v) k
     = DotDict.ClassAttribute k /\
   dict_get k (DotDict.__setattr__ d k v) = Some v) /\
  (forall k', k' <> k ->
     DotDict.getattr on_class (DotDict.__setattr__ d k v) k'
     = DotDict.getattr on_class d k') /\
  In k (DotDict.__dir__ (DotDict.__setattr__ d k v)) /\
  (dict_has k d = false ->
   (on_class k = false -> DotDict.getattr on_class d k = DotDict.Item PyNone) /\
   DotDict.__delattr__ d k = Raised (KeyError k)) /\
  (forall d', DotDict.__delattr__ d k = Returned d' ->
     (on_class k = false -> DotDict.getattr on_class d' k = DotDict.Item PyNone) /\
     forall k', k' <> k ->
       DotDict.getattr on_class d' k' = DotDict.getattr on_class d k').
Proof.
  unfold DotDict.getattr, DotDict.__getattr__, DotDict.__setattr__,
    DotDict.__delattr__, DotDict.__dir__.
  split; [intros ->; rewrite dict_get_set_same; reflexivity|].
  split; [intros ->; split; [reflexivity | apply dict_get_set_same]|].
  split; [intros k' Hne; rewrite dict_get_set_other by exact Hne; reflexivity|].
  split; [apply keys_set|].
  split.
  - intro Hh. rewrite Hh. unfold dict_has in Hh.
    destruct (dict_get k d); [discriminate|].
    split; [intros ->; reflexivity | reflexivity].
  - intros d' H. destruct (dict_has k d); [|discriminate].
    injection H as <-.
    split; [intros ->; rewrite dict_get_remove_same; reflexivity|].
    intros k' Hne. rewrite dict_get_remove_other by exact Hne. reflexivity.
Qed.

(** X15 for [d.keys = 1] on an empty [DotDict]: the item is stored and
    [d.keys] is still the method. *)
Lemma X15_dotdict_attributes_witness :
  DotDict.getattr example_on_class (DotDict.__setattr__ [] "keys" (PyInt 1)) "keys"
    = DotDict.ClassAttribute "keys" /\
  dict_get "keys" (DotDict.__setattr__ [] "keys" (PyInt 1)) = Some (PyInt 1).
Proof.
  apply (X15_dotdict_attributes example_on_class [] "keys" (PyInt 1)).
  reflexivity.
Defined.

(** ** [validate] *)

(** X16: [validate] hands an asset over only in two ways.  It calls the
    asset's own [validate] only for a [Dataset] given without
    [data_asset_type]; it converts only an asset that is a [Dataset] or a
    [DataFrame], to the class asked for, or to [PandasDataset] for a frame
    given without one, and only when the asset is an instance of that
    class or is a frame converted to a subclass of [PandasDataset].  An
    asset that is neither a [Dataset] nor a [DataFrame] is never handed
    over. *)
Theorem X16_validate_hand_over
    (class context : Type) (issubclass : class -> class -> bool)
    (Dataset DataFrame PandasDataset : class)
    (get_expectations : context -> option string -> result dict)
    (data_asset : class) (expectations_config : option dict)
    (data_asset_name : option string) (data_context : option context)
    (data_asset_type : option class) (v : validation class) :
  validate class issubclass Dataset DataFrame PandasDataset context
    get_expectations data_asset expectations_config data_asset_name
    data_context data_asset_type = Returned v ->
  (issubclass data_asset Dataset = true \/ issubclass data_asset DataFrame = true) /\
  match v with
  | ValidateAsIs _ _ =>
      issubclass data_asset Dataset = true /\ data_asset_type = None
  | ConvertThenValidate _ target _ =>
      (data_asset_type = Some target \/
       (data_asset_type = None /\ target = PandasDataset /\
        issubclass data_asset Dataset = false)) /\
      (issubclass data_asset target = true \/
       (issubclass data_asset DataFrame = true /\
        issubclass target PandasDataset = true))
  end.
Proof.
  unfold validate. intro H.
  match type of H with
  | match ?c with _ => _ end = _ => destruct c as [cfg|]; [|discriminate]
  end.
  destruct (issubclass data_asset Dataset) eqn:Eds;
    destruct data_asset_type as [target|]; cbn [andb orb negb] in H.
  - destruct (issubclass data_asset target) eqn:Et; cbn [negb] in H.
    + injection H as <-. split; [auto|]. split; [auto | auto].
    + destruct (issubclass data_asset DataFrame) eqn:Edf; cbn [andb] in H;
        [|discriminate].
      destruct (issubclass target PandasDataset) eqn:Ep; [|discriminate].
      injection H as <-. split; [auto|]. split; [auto | auto].
  - injection H as <-. split; [auto|]. split; reflexivity.
  - destruct (issubclass data_asset DataFrame) eqn:Edf; cbn [negb] in H;
      [|discriminate].
    destruct (issubclass data_asset target) eqn:Et; cbn [negb andb] in H.
    + injection H as <-. split; [auto|]. split; [auto | auto].
    + destruct (issubclass target PandasDataset) eqn:Ep; [|discriminate].
      injection H as <-. split; [auto|]. split; [auto | auto].
  - destruct (issubclass data_asset DataFrame) eqn:Edf; cbn [negb] in H;
      [|discriminate].
    destruct (issubclass data_asset PandasDataset) eqn:Et; cbn [negb andb] in H.
    + injection H as <-. split; [auto|]. split; [right; auto | auto].
    + destruct (issubclass PandasDataset PandasDataset) eqn:Ep; [|discriminate].
      injection H as <-. split; [auto|]. split; [right; auto | auto].
Qed.

(** X16 for a plain frame validated against a configuration: it is
    converted to [PandasDataset]. *)
Lemma X16_validate_hand_over_witness :
  (example_issubclass CDataFrame CDataset = true \/
   example_issubclass CDataFrame CDataFrame = true) /\
  ((None = Some CPandasDataset \/
    (@None example_class = None /\ CPandasDataset = CPandasDataset /\
     example_issubclass CDataFrame CDataset = false)) /\
   (example_issubclass CDataFrame CPandasDataset = true \/
    (example_issubclass CDataFrame CDataFrame = true /\
     example_issubclass CPandasDataset CPandasDataset = true))).
Proof.
  apply (X16_validate_hand_over example_class unit example_issubclass
           CDataset CDataFrame CPandasDataset no_context
           CDataFrame (Some []) None None None
           (ConvertThenValidate example_class CPandasDataset [])).
  reflexivity.
Defined.

(** X17: once a configuration is at hand, for an asset that is a
    [Dataset] or a [DataFrame] and is not handed to its own [validate],
    the subclass test is made against a class, never against [None]: the
    class given, or [PandasDataset] guessed for a frame given without one.
    The call then ends as that test decides: a conversion when the asset
    is an instance of the class, or is a frame and the class derives from
    [PandasDataset], and [ValueError] otherwise. *)
Theorem X17_validate_subclass_test
    (class context : Type) (issubclass : class -> class -> bool)
    (Dataset DataFrame PandasDataset : class)
    (get_expectations : context -> option string -> result dict)
    (data_asset : class) (expectations_config : option dict)
    (data_asset_name : option string) (data_context : option context)
    (data_asset_type : option class) (cfg : dict) :
  (expectations_config = Some cfg /\
   log_config_name cfg data_asset_name = Returned tt) \/
  (expectations_config = None /\
   exists ctx, data_context = Some ctx /\
               get_expectations ctx data_asset_name = Returned cfg) ->
  issubclass data_asset Dataset = false \/ data_asset_type <> None ->
  issubclass data_asset Dataset = true \/ issubclass data_asset DataFrame = true ->
  exists target,
    (data_asset_type = Some target \/
     (data_asset_type = None /\ target = PandasDataset /\
      issubclass data_asset DataFrame = true)) /\
    validate class issubclass Dataset DataFrame PandasDataset context
      get_expectations data_asset expectations_config data_asset_name
      data_context data_asset_type
    = if issubclass data_asset target
      then Returned (ConvertThenValidate class target cfg)
      else if issubclass data_asset DataFrame && issubclass target PandasDataset
           then Returned (ConvertThenValidate class target cfg)
           else Raised (ValueError
             "The validate util method only supports validation for subtypes of the provided data_asset_type.").
Proof.
  intros Hcfg Hnot Hinst. unfold validate.
  assert (Hstage :
    match expectations_config, data_context with
    | None, None =>
        Raised (ValueError
          "Either an expectations config or a DataContext is required for validation.")
    | None, Some ctx => get_expectations ctx data_asset_name
    | Some c, _ =>
        match log_config_name c data_asset_name with
        | Returned _ => Returned c
        | Raised e => Raised e
        end
    end = Returned cfg).
  { destruct Hcfg as [(-> & Hl) | (-> & ctx & -> & Hg)];
      [rewrite Hl; reflexivity | exact Hg]. }
  rewrite Hstage. clear Hstage Hcfg.
  destruct data_asset_type as [target|].
  - exists target. split; [left; reflexivity|].
    rewrite andb_false_r.
    destruct (issubclass data_asset Dataset) eqn:Eds;
      destruct (issubclass data_asset DataFrame) eqn:Edf;
      cbn [orb negb];
      try (destruct Hinst; discriminate);
      destruct (issubclass data_asset target); reflexivity.
  - destruct Hnot as [Hds | Hn]; [|contradiction]. rewrite Hds.
    destruct Hinst as [Hinst | Hdf]; [congruence|]. rewrite Hdf.
    exists PandasDataset. split; [right; auto|].
    cbn [andb orb negb].
    destruct (issubclass data_asset PandasDataset); reflexivity.
Qed.

(** X17 for a plain frame validated against a configuration. *)
Lemma X17_validate_subclass_test_witness :
  exists target,
    (@None example_class = Some target \/
     (@None example_class = None /\ target = CPandasDataset /\
      example_issubclass CDataFrame CDataFrame = true)) /\
    validate example_class example_issubclass CDataset CDataFrame CPandasDataset
      unit no_context CDataFrame (Some []) None None None
    = if example_issubclass CDataFrame target
      then Returned (ConvertThenValidate example_class target [])
      else if example_issubclass CDataFrame CDataFrame
              && example_issubclass target CPandasDataset
           then Returned (ConvertThenValidate example_class target [])
           else Raised (ValueError
             "The validate util method only supports validation for subtypes of the provided data_asset_type.").
Proof.
  apply (X17_validate_subclass_test example_class unit example_issubclass
           CDataset CDataFrame CPandasDataset no_context
           CDataFrame (Some []) None None None []).
  - left. split; reflexivity.
  - left. reflexivity.
  - right. reflexivity.
Defined.

(** X18: given a configuration, [validate] builds its log message from
    [expectations_config["data_asset_name"]] whenever the asset's name is a
    key of the configuration; when the name is a key and the configuration
    has no key [data_asset_name], the call ends in [KeyError] whatever the
    asset is. *)
Theorem X18_validate_log_message
    (class context : Type) (issubclass : class -> class -> bool)
    (Dataset DataFrame PandasDataset : class)
    (get_expectations : context -> option string -> result dict)
    (data_asset : class) (cfg : dict) (n : string)
    (data_context : option context) (data_asset_type : option class) :
  dict_has n cfg = true ->
  dict_has "data_asset_name" cfg = false ->
  validate class issubclass Dataset DataFrame PandasDataset context
    get_expectations data_asset (Some cfg) (Some n) data_context data_asset_type
  = Raised (KeyError "data_asset_name").
Proof.
  intros Hn Hk. unfold validate, log_config_name. rewrite Hn.
  unfold dict_has in Hk.
  destruct (dict_get "data_asset_name" cfg); [discriminate | reflexivity].
Qed.

(** X18 for a configuration with the one key [expectations] and an asset
    of that name. *)
Lemma X18_validate_log_message_witness :
  validate example_class example_issubclass CDataset CDataFrame CPandasDataset
    unit no_context CPandasDataset
    (Some [("expectations", PyList [])]) (Some "expectations") None None
  = Raised (KeyError "data_asset_name").
Proof.
  apply (X18_validate_log_message example_class unit example_issubclass
           CDataset CDataFrame CPandasDataset no_context CPandasDataset
           [("expectations", PyList [])] "expectations" None None);
    reflexivity.
Defined.

(** ** [PandasDatasource.build_batch_kwargs] *)

Lemma get_update_same (k : string) (v : PandasDatasource.value)
    (d : PandasDatasource.kwargs) :
  PandasDatasource.get k (PandasDatasource.update k v d) = Some v.
Proof.
  induction d as [|[k' v'] d IH]; simpl.
  - rewrite String.eqb_refl. reflexivity.
  - destruct (String.eqb k k') eqn:E; simpl.
    + rewrite String.eqb_refl. reflexivity.
    + rewrite E. exact IH.
Qed.

Lemma get_update_other (k k' : string) (v : PandasDatasource.value)
    (d : PandasDatasource.kwargs) :
  k' <> k ->
  PandasDatasource.get k' (PandasDatasource.update k v d) = PandasDatasource.get k' d.
Proof.
  intro Hne. induction d as [|[k0 v0] d IH]; simpl.
  - apply String.eqb_neq in Hne. rewrite Hne. reflexivity.
  - destruct (String.eqb k k0) eqn:E; simpl.
    + apply String.eqb_eq in E. subst k0.
      apply String.eqb_neq in Hne. rewrite Hne. reflexivity.
    + destruct (String.eqb k' k0); [reflexivity | exact IH].
Qed.

(** X19: [build_batch_kwargs] never touches a keyword other than [df],
    [path] and [timestamp].  Without positional argument it stamps the
    keywords with the time; a frame given first is stored under [df], a
    string given first under [path], either with the time, replacing what
    the caller passed under these names; a first argument of any other
    kind leaves the keywords as they are, without a timestamp. *)
Theorem X19_build_batch_kwargs
    (now : Q) (data_asset_name : string)
    (args : list PandasDatasource.value) (kw : PandasDatasource.kwargs) :
  let built := PandasDatasource.build_batch_kwargs now data_asset_name args kw in
  let stamp := Some (PandasDatasource.Plain (PyFloat now)) in
  (forall k, k <> "df" -> k <> "path" -> k <> "timestamp" ->
     PandasDatasource.get k built = PandasDatasource.get k kw) /\
  (args = [] ->
   PandasDatasource.get "timestamp" built = stamp /\
   PandasDatasource.get "df" built = PandasDatasource.get "df" kw /\
   PandasDatasource.get "path" built = PandasDatasource.get "path" kw) /\
  (forall id rest, args = PandasDatasource.Frame id :: rest ->
     PandasDatasource.get "df" built = Some (PandasDatasource.Frame id) /\
     PandasDatasource.get "timestamp" built = stamp /\
     PandasDatasource.get "path" built = PandasDatasource.get "path" kw) /\
  (forall path rest, args = PandasDatasource.Plain (PyStr path) :: rest ->
     PandasDatasource.get "path" built
       = Some (PandasDatasource.Plain (PyStr path)) /\
     PandasDatasource.get "timestamp" built = stamp /\
     PandasDatasource.get "df" built = PandasDatasource.get "df" kw) /\
  (forall v rest, args = PandasDatasource.Plain v :: rest ->
     (forall path, v <> PyStr path) -> built = kw).
Proof.
  intros built stamp. subst built stamp.
  split; [|split; [|split; [|split]]].
  - intros k Hdf Hpath Hts. unfold PandasDatasource.build_batch_kwargs.
    destruct args as [|[id|v] rest];
      [| |destruct v];
      rewrite ?get_update_other by assumption; reflexivity.
  - intros ->. simpl. rewrite get_update_same.
    rewrite !get_update_other by discriminate. auto.
  - intros id rest ->. simpl.
    rewrite get_update_same.
    rewrite (get_update_other "timestamp" "df") by discriminate.
    rewrite get_update_same.
    rewrite !get_update_other by discriminate. auto.
  - intros path rest ->. simpl.
    rewrite get_update_same.
    rewrite (get_update_other "timestamp" "path") by discriminate.
    rewrite get_update_same.
    rewrite !get_update_other by discriminate. auto.
  - intros v rest -> Hv. destruct v; try reflexivity.
    exfalso. exact (Hv s eq_refl).
Qed.

(** ** Round trips of the map decorator *)

(** X20: on any engine a column-map expectation makes at most two round
    trips, the counting query and then the sampling query on the same
    condition with the resolved limit; it makes none when the result
    format or the predicate function raises, and it has made both whenever
    it returns an outcome. *)
Theorem X20_map_round_trips
    (P : result_format_arg -> result result_format_dict)
    (func : DataSet -> string -> result sqlexpr)
    (self : DataSet) (column : string) (mostly : option Q)
    (result_format : option result_format_arg) (log : list query) :
  exists added,
    snd (column_map_expectation P func self column mostly result_format log)
    = (log ++ added)%list /\
    (added = [] \/
     exists rf cond,
       resolve_result_format P self result_format = Returned rf /\
       func self column = Returned cond /\
       (added = [SelectCounts (table_name self) column cond] \/
        added = [SelectCounts (table_name self) column cond;
                 SelectWhere (table_name self) column cond
                   (unexpected_count_limit rf)])) /\
    ((forall rf, resolve_result_format P self result_format <> Returned rf) \/
     (forall cond, func self column <> Returned cond) ->
     added = []) /\
    (forall out,
       fst (column_map_expectation P func self column mostly result_format log)
       = Returned out ->
       List.length added = 2%nat).
Proof.
  unfold column_map_expectation, bind, lift, execute, raise, shape_error.
  destruct (resolve_result_format P self result_format) as [rf|e] eqn:Erf.
  2:{ exists []. rewrite app_nil_r. split; [reflexivity|].
      split; [auto|]. split; [auto | discriminate]. }
  destruct (func self column) as [cond|e] eqn:Ef.
  2:{ exists []. rewrite app_nil_r. split; [reflexivity|].
      split; [auto|]. split; [auto | discriminate]. }
  assert (Hno : (forall rf0, Returned rf <> Returned rf0) \/
                (forall cond0, @Returned sqlexpr cond <> Returned cond0) ->
                forall l : list query, l = []).
  { intros [H | H]; [exfalso; exact (H rf eq_refl) | exfalso; exact (H cond eq_refl)]. }
  destruct (engine self (SelectCounts (table_name self) column cond))
    as [[ec nc uc | | |]|].
  2-5: (eexists; split; [reflexivity|]; split;
        [right; exists rf, cond; auto|]; split; [intro H; apply Hno; exact H|];
        discriminate).
  destruct (engine self (SelectWhere (table_name self) column cond
                           (unexpected_count_limit rf)))
    as [[| | sample |]|].
  1-2,4-5: (eexists; split; [simpl; rewrite <- app_assoc; reflexivity|]; split;
            [right; exists rf, cond; auto|]; split; [intro H; apply Hno; exact H|];
            discriminate).
  eexists. split.
  - destruct (int_sub ec nc) as [nn|]; [|simpl; rewrite <- app_assoc; reflexivity].
    destruct (int_sub nn uc) as [sc|]; [|simpl; rewrite <- app_assoc; reflexivity].
    destruct (_calc_map_expectation_success sc nn mostly).
    simpl. rewrite <- app_assoc. reflexivity.
  - split; [right; exists rf, cond; auto|].
    split; [intro H; apply Hno; exact H|]. reflexivity.
Qed.
